(** * analyze_bcpf: the hidden API flag reconciliation of a bootclasspath_fragment

    A shallow embedding of [scripts/hiddenapi/analyze_bcpf.py] and the
    properties of its report parser, signature catalog, override file
    scanner and change plan.

    Conventions of the embedding.
    - A Python [str] is a [string]; characters are code points below 256.
    - A line iterator is the list of the lines it has yet to yield.  The
      iterator handed to [scan_inconsistent_flags_report] is shared with its
      caller, so the scanner returns the lines it has left.
    - [self.report(text)] appends one [Report] to the console log; the log
      records which message was issued and the values interpolated into it,
      not the advisory prose.  [logging.debug] output is not modelled.
    - An exception is a value of [exn]; a computation returns the reports it
      issued together with its result or the exception that ended it. *)

From Equations Require Import Equations.
From Stdlib Require Import ZArith Ascii String List Lia.
From Stdlib Require Import Sorting.Permutation Sorting.Sorted.
From stdpp Require Import base option list strings gmap sorting.

Local Open Scope stdpp_scope.

(** ** Python strings *)

Module Py.

(** [bool(s)] for a string: the empty string is falsy. *)
Definition truthy (s : string) : bool := negb (String.eqb s "").

(** [s.startswith(p)] *)
Fixpoint startswith (s p : string) {struct p} : bool :=
  match p, s with
  | "", _ => true
  | String a p', String b s' => Ascii.eqb a b && startswith s' p'
  | String _ _, "" => false
  end.

(** [s[n:]] *)
Fixpoint drop (n : nat) (s : string) : string :=
  match n, s with
  | 0, _ => s
  | S n', String _ s' => drop n' s'
  | S _, "" => ""
  end.

(** [s[:n]] *)
Fixpoint take (n : nat) (s : string) : string :=
  match n, s with
  | 0, _ => ""
  | S n', String a s' => String a (take n' s')
  | S _, "" => ""
  end.

(** [s.removeprefix(p)] *)
Definition removeprefix (s p : string) : string :=
  if startswith s p then drop (String.length p) s else s.

(** [s.endswith(p)] *)
Definition endswith (s p : string) : bool :=
  startswith (String.rev s) (String.rev p).

(** [s.removesuffix(p)] *)
Definition removesuffix (s p : string) : string :=
  if endswith s p && truthy p
  then take (String.length s - String.length p) s
  else s.

(** [needle in hay] *)
Fixpoint contains (needle hay : string) : bool :=
  startswith hay needle ||
  match hay with
  | "" => false
  | String _ hay' => contains needle hay'
  end.

(** [sep.join(l)] *)
Fixpoint join (sep : string) (l : list string) : string :=
  match l with
  | [] => ""
  | [x] => x
  | x :: l' => x +:+ sep +:+ join sep l'
  end.

(** [s.split(sep)] for a non-empty [sep]: the fields between the
    leftmost, non-overlapping occurrences of [sep].  [skip] counts the
    characters of an occurrence still to be passed over and [cur] holds
    the current field, reversed. *)
Fixpoint split_go (sep : string) (skip : nat) (cur : string) (s : string)
  : list string :=
  match s with
  | "" => [String.rev cur]
  | String a s' =>
      match skip with
      | S k => split_go sep k cur s'
      | 0 =>
          if startswith s sep
          then String.rev cur :: split_go sep (String.length sep - 1) "" s'
          else split_go sep 0 (String a cur) s'
      end
  end.

Definition split (s sep : string) : list string := split_go sep 0 "" s.

(** [s.replace(old, new)] for a non-empty [old]. *)
Definition replace (s old new : string) : string := join new (split s old).

(** [s.strip(c)] and friends for a one-character set [c]. *)
Fixpoint lstrip (c : ascii) (s : string) : string :=
  match s with
  | String a s' => if Ascii.eqb a c then lstrip c s' else s
  | "" => ""
  end.

Definition rstrip (c : ascii) (s : string) : string :=
  String.rev (lstrip c (String.rev s)).

Definition strip (c : ascii) (s : string) : string := rstrip c (lstrip c s).

(** [str.isspace] on one character: the code points below 256 that
    Python counts as white space. *)
Definition isspace (a : ascii) : bool :=
  let n := nat_of_ascii a in
  ((9 <=? n) && (n <=? 13) || (28 <=? n) && (n <=? 32)
   || (n =? 133) || (n =? 160))%nat.

(** [s.rstrip()] *)
Fixpoint lstrip_space (s : string) : string :=
  match s with
  | String a s' => if isspace a then lstrip_space s' else s
  | "" => ""
  end.

Definition rstrip_space (s : string) : string :=
  String.rev (lstrip_space (String.rev s)).

(** [os.path.join(a, b)] on POSIX. *)
Definition path_join (a b : string) : string :=
  if startswith b "/" then b
  else if negb (truthy a) || endswith a "/" then a +:+ b
  else a +:+ "/" +:+ b.

(** [s1 < s2] on strings: lexicographic by code point. *)
Definition lt (s1 s2 : string) : bool := String.ltb s1 s2.

(** [s.rsplit(c, 1)] for a one-character separator [c]: the text before
    the last [c] and the text behind it, or [s] alone when it holds no
    [c]. *)
Fixpoint cut_last (c : ascii) (s : string) : option (string * string) :=
  match s with
  | "" => None
  | String a s' =>
      match cut_last c s' with
      | Some (before, behind) => Some (String a before, behind)
      | None => if Ascii.eqb a c then Some ("", s') else None
      end
  end.

Definition rsplit1 (s : string) (c : ascii) : list string :=
  match cut_last c s with
  | Some (before, behind) => [before; behind]
  | None => [s]
  end.

End Py.


(** ** Exceptions, reports and computations *)

(** The exceptions the script can end with. *)
Inductive exn : Type :=
| SystemExit (code : Z)          (* [sys.exit(code)] *)
| StopIteration                  (* [next] on an exhausted iterator *)
| TimeoutExpired                 (* [popen.wait(timeout=10)] ran out *)
| AttributeError                 (* [self.module_info] is still [None] *)
| OSError (path : string)        (* [open], [os.listdir] or [json.load] failed *)
| ModuleNotFound (module_name : string)
    (* [Exception(f"Module {module_name} could not be found")] *)
| NoUniquePath (module_name : string) (paths : list string)
    (* [Exception(f"Expected module '{module_name}' to have a single unique
       path but found {unique_paths}")] *)
| NotInitialized (what : string)
    (* [Exception("signatures has not been initialized")], and the same
       for classes *)
| ErrorBuilding (file : string)
    (* [Exception(f"Error building {module_info_file}")] *)
| CouldNotFind (basename dir : string).
    (* [Exception(f"Could not find {basename} in {bcpf_out_dir}")] *)

(** The calls of [self.report], by message. *)
Inductive Report : Type :=
| Analyzing (bcpf : string)
| BeforeYouStart (bcpf apex sdk : string)
| MakingSure (module_info_file : string)
| Cleaning
| AttemptingStubFlags
| StubFlagsDiscrepancy (bcpf : string)
| AttemptingFlags
| FlagsDiscrepancy (apex : string)
| CheckingCustomFlags
| FilteringOut (module_line : string)
| InvalidBuildOutput (module_line monolithic_line separator_line : string)
| InconsistentSignatures (module_signature monolithic_signature : string)
| ModificationsHeader
| Modification (path description : string).

Inductive Outcome (A : Type) : Type :=
| Return (a : A)
| Raise (e : exn).
Arguments Return {A} a.
Arguments Raise {A} e.

(** A computation: the reports issued, then the value or the exception. *)
Definition M (A : Type) : Type := (list Report * Outcome A)%type.

Definition ret {A} (a : A) : M A := ([], Return a).
Definition raise {A} (e : exn) : M A := ([], Raise e).
Definition report (r : Report) : M unit := ([r], Return tt).
Definition lift {A} (o : Outcome A) : M A := ([], o).

Definition bind {A B} (m : M A) (k : A → M B) : M B :=
  match m with
  | (out, Return a) => let '(out', r) := k a in (out ++ out', r)
  | (out, Raise e) => (out, Raise e)
  end.

Notation "'let!' x ':=' m 'in' k" := (bind m (fun x => k))
  (at level 10, x pattern, m at level 100, k at level 200, only parsing).
Notation "m ';;;' k" := (bind m (fun _ => k))
  (at level 100, k at level 200, right associativity, only parsing).

(** ** Data classes *)

(** [FlagDiffs.diffs]: member signature to (module flags, monolithic flags). *)
Abbreviation DiffMap := (gmap string (list string * list string)).

(** [ModuleInfo]: the parsed module-info.json, of which only the
    ["path"] entry of each module is used. *)
Record ModuleInfo : Type := { modules : gmap string (list string) }.

Record FileChange : Type := { path : string; description : string }.

Record HiddenApiPropertyChange : Type := {
  property_name : string;
  values : list string;
  property_comment : string }.

Record Result : Type := {
  diffs : option DiffMap;
  property_changes : list HiddenApiPropertyChange;
  file_changes : list FileChange }.

(** [Result()] *)
Definition new_Result : Result :=
  {| diffs := None; property_changes := []; file_changes := [] |}.

Record BcpfAnalyzer : Type := {
  top_dir : string;
  out_dir : string;
  product_out_dir : string;
  bcpf : string;
  apex : string;
  sdk : string;
  _signatures : gset string;
  _classes : gset string;
  module_info : option ModuleInfo }.

(** [BcpfAnalyzer(top_dir=..., ..., sdk=...)] as [main] constructs it. *)
Definition new_BcpfAnalyzer (top out product b a s : string) : BcpfAnalyzer :=
  {| top_dir := top; out_dir := out; product_out_dir := product;
     bcpf := b; apex := a; sdk := s;
     _signatures := ∅; _classes := ∅; module_info := None |}.

(** [BuildOperation]: the lines its [lines()] yields and the exit status
    [wait] stores, [None] when the process outlives the timeout. *)
Record BuildOperation : Type := {
  lines : list string;
  returncode : option Z }.

(** What the script obtains from outside itself: the build tool, the file
    system, and the behaviour of the Python runtime that is left open. *)
Record Env : Type := {
  (* [subprocess.Popen] of soong_ui.bash on a target *)
  soong_ui : string → BuildOperation;
  (* [json.load] of a file *)
  json_load : string → Outcome ModuleInfo;
  (* [os.walk(dir)]: the (dirpath, filenames) pairs in visiting order *)
  os_walk : string → list (string * list string);
  (* [os.listdir(dir)] *)
  os_listdir : string → Outcome (list string);
  (* the successive results of [f.readline] on a file *)
  readlines : string → Outcome (list string);
  (* [os.path.relpath(path, start)] *)
  relpath : string → string → string;
  (* [textwrap.wrap(text, width=w)] *)
  textwrap_wrap : string → Z → list string;
  (* [textwrap.indent(text, prefix)] *)
  textwrap_indent : string → string → string;
  (* the order in which a set of strings is iterated *)
  set_order : gset string → list string }.

Definition _STUB_FLAGS_FILE : string := "out/soong/hiddenapi/hiddenapi-stub-flags.txt".
Definition _FLAGS_FILE : string := "out/soong/hiddenapi/hiddenapi-flags.csv".
Definition _INCONSISTENT_FLAGS : string := "ERROR: Hidden API flags are inconsistent:".

(** Induction over a list taken three elements at a time, the way
    [zip(lines, lines, lines)] consumes it. *)
Lemma list_ind3 {A} (P : list A → Prop) :
  P [] → (∀ a, P [a]) → (∀ a b, P [a; b]) →
  (∀ a b c l, P l → P (a :: b :: c :: l)) →
  ∀ l, P l.
Proof.
  intros H0 H1 H2 H3.
  fix IH 1.
  intros [| a [| b [| c l]]];
    [apply H0 | apply H1 | apply H2 | apply H3, IH].
Qed.

(** Case analysis that keeps the equation, for definitions by
    well-founded recursion. *)
Definition inspect {A} (x : A) : {y | x = y} := exist _ x eq_refl.

(** ** ModuleInfo *)

(** [ModuleInfo._module] followed by the lookup of its ["path"] entry. *)
Definition _module (mi : ModuleInfo) (module_name : string)
  : Outcome (list string) :=
  match modules mi !! module_name with
  | Some module => Return module
  | None => Raise (ModuleNotFound module_name)
  end.

(** [ModuleInfo.module_path] *)
Definition ModuleInfo_module_path (mi : ModuleInfo) (module_name : string)
  : Outcome string :=
  match _module mi module_name with
  | Raise e => Raise e
  | Return paths =>
      let unique_paths : gset string := list_to_set paths in
      if decide (size unique_paths = 1) then Return (hd "" paths)
      else Raise (NoUniquePath module_name paths)
  end.

(** ** Module-level helpers *)

(** [iter(readline, "")]: the results of [readline] up to the first
    empty string. *)
Fixpoint iter_until_empty (raw : list string) : list string :=
  match raw with
  | [] => []
  | line :: raw' =>
      if Py.truthy line then line :: iter_until_empty raw' else []
  end.

Definition newline_stripping_iter (raw : list string) : list string :=
  map Py.rstrip_space (iter_until_empty raw).

(** The double quote and the newline, as strings. *)
Definition dquote : string := String (ascii_of_nat 34) "".
Definition nl : string := String (ascii_of_nat 10) "".

(** [list.sort()] and [sorted]: a stable sort that compares with [<] only.
    An element is put before the first one of the sorted rest that is not
    smaller than it, so elements that compare equal keep their order. *)
Fixpoint sort_insert {A} (lt : A → A → bool) (x : A) (l : list A) : list A :=
  match l with
  | [] => [x]
  | y :: l' => if lt y x then y :: sort_insert lt x l' else x :: y :: l'
  end.

Fixpoint list_sort {A} (lt : A → A → bool) (l : list A) : list A :=
  match l with
  | [] => []
  | x :: l' => sort_insert lt x (list_sort lt l')
  end.

(** [FileChange.__lt__] *)
Definition FileChange_lt (self other : FileChange) : bool :=
  Py.lt (path self) (path other).

(** [BuildOperation.wait] *)
Definition wait (self : BuildOperation) : Outcome Z :=
  match returncode self with
  | Some rc => Return rc
  | None => Raise TimeoutExpired
  end.

(** Assignments to the fields of [self] and of [result]. *)
Definition set_module_info (self : BcpfAnalyzer) (mi : ModuleInfo)
  : BcpfAnalyzer :=
  {| top_dir := top_dir self; out_dir := out_dir self;
     product_out_dir := product_out_dir self; bcpf := bcpf self;
     apex := apex self; sdk := sdk self;
     _signatures := _signatures self; _classes := _classes self;
     module_info := Some mi |}.

Definition add_signature_and_class (self : BcpfAnalyzer)
    (signature class_name : string) : BcpfAnalyzer :=
  {| top_dir := top_dir self; out_dir := out_dir self;
     product_out_dir := product_out_dir self; bcpf := bcpf self;
     apex := apex self; sdk := sdk self;
     _signatures := _signatures self ∪ {[signature]};
     _classes := _classes self ∪ {[class_name]};
     module_info := module_info self |}.

Definition set_diffs (result : Result) (d : option DiffMap) : Result :=
  {| diffs := d; property_changes := property_changes result;
     file_changes := file_changes result |}.

Definition append_file_change (result : Result) (c : FileChange) : Result :=
  {| diffs := diffs result; property_changes := property_changes result;
     file_changes := file_changes result ++ [c] |}.

Definition append_property_change (result : Result)
    (c : HiddenApiPropertyChange) : Result :=
  {| diffs := diffs result;
     property_changes := property_changes result ++ [c];
     file_changes := file_changes result |}.

Section Analyzer.

Variable env : Env.

Definition format_comment_as_lines (text indent : string) : list string :=
  let lines :=
    textwrap_wrap env (Py.strip "010" text)
                  (77 - Z.of_nat (String.length indent)) in
  map (fun line => indent +:+ "// " +:+ line) lines.

Definition format_comment_as_text (text indent : string) : string :=
  Py.join "" (map (fun line => line +:+ nl)
                  (format_comment_as_lines text indent)).

(** [HiddenApiPropertyChange.snippet] *)
Definition snippet (self : HiddenApiPropertyChange) (indent : string)
  : string :=
  let snippet := nl in
  let snippet :=
    snippet +:+ format_comment_as_text (property_comment self) indent in
  let snippet := snippet +:+ indent +:+ property_name self +:+ ": [" in
  let snippet :=
    match values self with
    | [] => snippet
    | _ =>
        let snippet := snippet +:+ nl in
        let snippet :=
          fold_left
            (fun snippet value =>
               snippet +:+ indent +:+ "    " +:+ dquote +:+ value
                       +:+ dquote +:+ "," +:+ nl)
            (values self) snippet in
        snippet +:+ indent
    end in
  snippet +:+ "]," +:+ nl.

(** ** BcpfAnalyzer *)

(** The [signatures] property. *)
Definition signatures (self : BcpfAnalyzer) : Outcome (gset string) :=
  if decide (_signatures self = ∅)
  then Raise (NotInitialized "signatures")
  else Return (_signatures self).

(** The [classes] property. *)
Definition classes (self : BcpfAnalyzer) : Outcome (gset string) :=
  if decide (_classes self = ∅)
  then Raise (NotInitialized "classes")
  else Return (_classes self).

Definition line_to_signature (line : string) : string :=
  hd "" (Py.split line ",").

Definition signature_to_class (signature : string) : string :=
  hd "" (Py.split signature ";->").

Definition to_parent_package (pkg_or_class : string) : string :=
  hd "" (Py.rsplit1 pkg_or_class "/").

(** [reformat_report_test]: [re.sub(r"(.)\n([^\s])", r"\1 \2", text)].
    The text is read from the left; where a character other than a newline
    is followed by a newline and a character that is not white space, the
    three are replaced by the first, a space and the third, and reading
    goes on behind them; any other character is kept. *)
Fixpoint reformat_report_test (text : string) : string :=
  match text with
  | "" => ""
  | String a text' =>
      match text' with
      | String b (String c text'') =>
          if negb (Ascii.eqb a "010") && Ascii.eqb b "010"
             && negb (Py.isspace c)
          then String a (String " " (String c (reformat_report_test text'')))
          else String a (reformat_report_test text')
      | _ => String a (reformat_report_test text')
      end
  end.

(** [BcpfAnalyzer.module_path]: [self.module_info.module_path(name)]. *)
Definition module_path (self : BcpfAnalyzer) (module_name : string)
  : Outcome string :=
  match module_info self with
  | None => Raise AttributeError
  | Some mi => ModuleInfo_module_path mi module_name
  end.

Definition module_out_dir (self : BcpfAnalyzer) (module_name : string)
  : Outcome string :=
  match module_path self module_name with
  | Raise e => Raise e
  | Return module_path =>
      Return (Py.path_join
                (Py.path_join
                   (Py.path_join (out_dir self) "soong/.intermediates")
                   module_path)
                module_name)
  end.

Definition find_bootclasspath_fragment_output_file
    (self : BcpfAnalyzer) (basename : string) : Outcome string :=
  match module_out_dir self (bcpf self) with
  | Raise e => Raise e
  | Return bcpf_out_dir =>
      let found_file :=
        fold_left
          (fun found_file '(dirpath, filenames) =>
             if existsb (String.eqb basename) filenames
             then Py.path_join dirpath basename
             else found_file)
          (os_walk env bcpf_out_dir) "" in
      if Py.truthy found_file then Return found_file
      else Raise (CouldNotFind basename bcpf_out_dir)
  end.

Definition new_file_change (self : BcpfAnalyzer) (file description : string)
  : FileChange :=
  {| path := relpath env file (top_dir self); description := description |}.

(** *** The inconsistent flags report *)

Definition check_inconsistent_flag_lines
    (significant : bool) (module_line monolithic_line separator_line : string)
  : M unit :=
  if negb (Py.startswith module_line "< "
           && Py.startswith monolithic_line "> "
           && negb (Py.truthy separator_line))
  then
    report (InvalidBuildOutput module_line monolithic_line separator_line) ;;;
    raise (SystemExit 1)
  else ret tt.

(** The [for ... in triples] loop of [scan_inconsistent_flags_report].
    [zip(lines, lines, lines)] yields a triple while three more lines are
    left, and otherwise ends, having exhausted [lines]. *)
Fixpoint scan_triples (significant : bool) (lines : list string)
    (diffs : DiffMap) : M (string * DiffMap * list string) :=
  match lines with
  | module_line :: monolithic_line :: separator_line :: lines' =>
      check_inconsistent_flag_lines significant module_line
                                    monolithic_line "" ;;;
      let module_parts := Py.split (Py.removeprefix module_line "< ") "," in
      let module_signature := hd "" module_parts in
      let module_flags := tl module_parts in
      let monolithic_parts :=
        Py.split (Py.removeprefix monolithic_line "> ") "," in
      let monolithic_signature := hd "" monolithic_parts in
      let monolithic_flags := tl monolithic_parts in
      if negb (String.eqb module_signature monolithic_signature)
      then
        report (InconsistentSignatures module_signature
                                       monolithic_signature) ;;;
        raise (SystemExit 1)
      else
        let diffs :=
          <[module_signature := (module_flags, monolithic_flags)]> diffs in
        if Py.truthy separator_line
        then ret (separator_line, diffs, lines')
        else scan_triples significant lines' diffs
  | _ => ret ("", diffs, [])
  end.

(** [scan_inconsistent_flags_report]: the line that ended the report, the
    diffs, and what is left of [lines]. *)
Definition scan_inconsistent_flags_report
    (self : BcpfAnalyzer) (lines : list string)
  : M (string * DiffMap * list string) :=
  match lines with
  | module_line :: monolithic_line :: separator_line :: lines' =>
      let! bcpf_dir := lift (module_path self (bcpf self)) in
      let! significant :=
        if Py.contains (Py.path_join bcpf_dir (bcpf self)) module_line
        then ret true
        else report (FilteringOut module_line) ;;; ret false in
      check_inconsistent_flag_lines significant module_line
                                    monolithic_line separator_line ;;;
      scan_triples significant lines' ∅
  | _ => raise StopIteration
  end.

(** A report that is scanned to its end leaves fewer lines than it was
    given: the loops of [build_hiddenapi_flags] terminate. *)
Lemma check_inconsistent_flag_lines_cases significant m p s :
  check_inconsistent_flag_lines significant m p s = ([], Return tt)
  ∨ check_inconsistent_flag_lines significant m p s
    = ([InvalidBuildOutput m p s], Raise (SystemExit 1)).
Proof.
  unfold check_inconsistent_flag_lines.
  destruct (negb _); [right | left]; reflexivity.
Qed.

Lemma scan_triples_unfold significant m p sep lines diffs :
  scan_triples significant (m :: p :: sep :: lines) diffs =
  (check_inconsistent_flag_lines significant m p "" ;;;
   let module_parts := Py.split (Py.removeprefix m "< ") "," in
   let monolithic_parts := Py.split (Py.removeprefix p "> ") "," in
   if negb (String.eqb (hd "" module_parts) (hd "" monolithic_parts))
   then
     report (InconsistentSignatures (hd "" module_parts)
                                    (hd "" monolithic_parts)) ;;;
     raise (SystemExit 1)
   else
     let diffs :=
       <[hd "" module_parts := (tl module_parts, tl monolithic_parts)]>
         diffs in
     if Py.truthy sep then ret (sep, diffs, lines)
     else scan_triples significant lines diffs).
Proof. reflexivity. Qed.

Lemma scan_triples_leftover significant lines :
  ∀ diffs out sep diffs' rest,
    scan_triples significant lines diffs
    = (out, Return (sep, diffs', rest)) →
    length rest ≤ length lines.
Proof.
  induction lines as [| | | m p s lines IH] using list_ind3;
    intros diffs out sep diffs' rest; try (cbn; intros [= <- <- <- <-]; cbn; lia).
  rewrite scan_triples_unfold.
  destruct (check_inconsistent_flag_lines_cases significant m p "")
    as [-> | ->]; cbn; [| discriminate].
  destruct (negb (String.eqb _ _)); cbn; [discriminate |].
  destruct (Py.truthy s); cbn.
  - intros [= <- <- <- <-]. lia.
  - destruct (scan_triples _ _ _) as [out' r] eqn:E.
    intros [= <- ->]. apply IH in E. lia.
Qed.

Lemma scan_inconsistent_flags_report_leftover self lines out sep diffs' rest :
  scan_inconsistent_flags_report self lines
  = (out, Return (sep, diffs', rest)) →
  length rest < length lines.
Proof.
  destruct lines as [| m [| p [| s lines]]]; try discriminate.
  unfold scan_inconsistent_flags_report.
  destruct (module_path self (bcpf self)) as [bcpf_dir | e]; cbn;
    [| discriminate].
  destruct (Py.contains _ _); cbn.
  - destruct (check_inconsistent_flag_lines_cases true m p s)
      as [-> | ->]; cbn; [| discriminate].
    destruct (scan_triples _ _ _) as [out' r] eqn:E.
    intros [= <- ->]. apply scan_triples_leftover in E. lia.
  - destruct (check_inconsistent_flag_lines_cases false m p s)
      as [-> | ->]; cbn; [| discriminate].
    destruct (scan_triples _ _ _) as [out' r] eqn:E.
    intros [= <- ->]. apply scan_triples_leftover in E. lia.
Qed.

(** The loops of [build_hiddenapi_flags],

      for line in lines:
          while line == _INCONSISTENT_FLAGS:
              line, diffs = self.scan_inconsistent_flags_report(lines)

    entered at the [while] with the current [line] and the lines left. *)
Equations? while_inconsistent (self : BcpfAnalyzer) (line : string)
    (lines : list string) (diffs : option DiffMap)
  : M (option DiffMap) by wf (length lines) lt :=
  while_inconsistent self line lines diffs
    with String.eqb line _INCONSISTENT_FLAGS := {
    | true with inspect (scan_inconsistent_flags_report self lines) := {
        | exist _ (out, Return (line', diffs', lines')) E =>
            bind (out, Return tt)
                 (fun _ => while_inconsistent self line' lines' (Some diffs'))
        | exist _ (out, Raise e) E => (out, Raise e) };
    | false with lines := {
        | [] => ret diffs
        | line' :: lines' => while_inconsistent self line' lines' diffs } }.
Proof.
  - eapply scan_inconsistent_flags_report_leftover, E.
  - cbn. lia.
Qed.

Lemma while_inconsistent_eq self line lines diffs :
  while_inconsistent self line lines diffs =
  if String.eqb line _INCONSISTENT_FLAGS
  then
    let! (line', diffs', lines') :=
      scan_inconsistent_flags_report self lines in
    while_inconsistent self line' lines' (Some diffs')
  else
    match lines with
    | [] => ret diffs
    | line' :: lines' => while_inconsistent self line' lines' diffs
    end.
Proof.
  simp while_inconsistent.
  destruct (String.eqb line _INCONSISTENT_FLAGS); cbn.
  - destruct (scan_inconsistent_flags_report self lines)
      as [out [[[line' diffs'] lines'] | e]]; reflexivity.
  - destruct lines; reflexivity.
Qed.

Definition for_line_in (self : BcpfAnalyzer) (lines : list string)
    (diffs : option DiffMap) : M (option DiffMap) :=
  match lines with
  | [] => ret diffs
  | line :: lines' => while_inconsistent self line lines' diffs
  end.

Definition build_file_read_output (self : BcpfAnalyzer) (filename : string)
  : BuildOperation :=
  let rel_filename := Py.removeprefix filename (top_dir self) in
  soong_ui env rel_filename.

Definition build_hiddenapi_flags (self : BcpfAnalyzer) (filename : string)
  : M (option DiffMap) :=
  let output := build_file_read_output self filename in
  let! diffs := for_line_in self (lines output) None in
  let! returncode := lift (wait output) in
  if negb (returncode =? 0)%Z
  then ret diffs       (* [logging.debug("Command failed with %s", ...)] *)
  else ret diffs.      (* [logging.debug("Command succeeded")] *)

Definition load_module_info (self : BcpfAnalyzer) : M BcpfAnalyzer :=
  let module_info_file :=
    Py.path_join (product_out_dir self) "module-info.json" in
  report (MakingSure module_info_file) ;;;
  let output := build_file_read_output self module_info_file in
  let! returncode := lift (wait output) in
  if negb (returncode =? 0)%Z
  then raise (ErrorBuilding module_info_file)
  else
    let abs_module_info_file :=
      Py.path_join (top_dir self) module_info_file in
    let! mi := lift (json_load env abs_module_info_file) in
    ret (set_module_info self mi).

Definition load_all_flags (self : BcpfAnalyzer) : M BcpfAnalyzer :=
  let! all_flags :=
    lift (find_bootclasspath_fragment_output_file self "all-flags.csv") in
  let! raw := lift (readlines env all_flags) in
  ret (fold_left
         (fun self line =>
            let signature := line_to_signature line in
            let class_name := signature_to_class signature in
            add_signature_and_class self signature class_name)
         (newline_stripping_iter raw) self).

Definition build_monolithic_stubs_flags (self : BcpfAnalyzer)
  : M (option DiffMap) :=
  report AttemptingStubFlags ;;;
  let! diffs := build_hiddenapi_flags self _STUB_FLAGS_FILE in
  match diffs with
  | Some d =>
      if decide (d = ∅) then ret diffs
      else report (StubFlagsDiscrepancy (bcpf self)) ;;; ret diffs
  | None => ret diffs
  end.

(** The loop of [report_hidden_api_flag_file_changes] over the lines of
    the flags file. *)
Fixpoint match_signatures (self : BcpfAnalyzer) (lines : list string)
    (matched_signatures : gset string) : Outcome (gset string) :=
  match lines with
  | [] => Return matched_signatures
  | signature :: lines' =>
      match signatures self with
      | Raise e => Raise e
      | Return all =>
          if decide (signature ∈ all)
          then match_signatures self lines'
                                (matched_signatures ∪ {[signature]})
          else match_signatures self lines' matched_signatures
      end
  end.

Definition report_hidden_api_flag_file_changes
    (self : BcpfAnalyzer) (result : Result)
    (property_name flags_file rel_bcpf_flags_file bcpf_flags_file : string)
  : M Result :=
  let! raw := lift (readlines env flags_file) in
  let! matched_signatures :=
    lift (match_signatures self (newline_stripping_iter raw) ∅) in
  if decide (matched_signatures = ∅) then ret result
  else
    let insert :=
      textwrap_indent env (Py.join nl (set_order env matched_signatures))
                      "            " in
    let result :=
      append_file_change result
        (new_file_change self flags_file
           ("Remove the following entries:" +:+ nl +:+ insert +:+ nl)) in
    let result :=
      append_file_change result
        (new_file_change self bcpf_flags_file
           ("Add the following entries:" +:+ nl +:+ insert +:+ nl)) in
    let result :=
      append_property_change result
        {| property_name := property_name;
           values := [rel_bcpf_flags_file];
           property_comment := "" |} in
    ret result.

(** The body of the loop of [check_frameworks_base_boot_hidden_api_files]. *)
Definition check_hidden_api_file (self : BcpfAnalyzer)
    (hiddenapi_dir : string) (result : Result) (basename : string)
  : M Result :=
  if negb (Py.startswith basename "hiddenapi-"
           && Py.endswith basename ".txt")
  then ret result
  else
    let flags_file := Py.path_join hiddenapi_dir basename in
    let basename :=
      if String.eqb basename "hiddenapi-max-target-o.txt"
      then "hiddenapi-max-target-o-low-priority.txt"
      else if String.eqb basename "hiddenapi-max-target-r-loprio.txt"
      then "hiddenapi-max-target-r-low-priority.txt"
      else basename in
    let property_name := Py.removeprefix basename "hiddenapi-" in
    let property_name := Py.removesuffix property_name ".txt" in
    let property_name := Py.replace property_name "-" "_" in
    let rel_bcpf_flags_file := "hiddenapi/" +:+ basename in
    let! bcpf_dir := lift (module_path self (bcpf self)) in
    let bcpf_flags_file :=
      Py.path_join (Py.path_join (top_dir self) bcpf_dir)
                   rel_bcpf_flags_file in
    report_hidden_api_flag_file_changes
      self result property_name flags_file rel_bcpf_flags_file
      bcpf_flags_file.

Fixpoint for_basename_in (self : BcpfAnalyzer) (hiddenapi_dir : string)
    (basenames : list string) (result : Result) : M Result :=
  match basenames with
  | [] => ret result
  | basename :: basenames' =>
      let! result := check_hidden_api_file self hiddenapi_dir result basename in
      for_basename_in self hiddenapi_dir basenames' result
  end.

Definition check_frameworks_base_boot_hidden_api_files
    (self : BcpfAnalyzer) (result : Result) : M Result :=
  let hiddenapi_dir :=
    Py.path_join (top_dir self) "frameworks/base/boot/hiddenapi" in
  let! listing := lift (os_listdir env hiddenapi_dir) in
  for_basename_in self hiddenapi_dir (list_sort Py.lt listing) result.

Definition build_monolithic_flags (self : BcpfAnalyzer) (result : Result)
  : M (BcpfAnalyzer * Result) :=
  report AttemptingFlags ;;;
  let! d := build_hiddenapi_flags self _FLAGS_FILE in
  let result := set_diffs result d in
  let! self := load_all_flags self in
  match diffs result with
  | Some d =>
      if decide (d = ∅) then ret (self, result)
      else
        report (FlagsDiscrepancy (apex self)) ;;;
        report CheckingCustomFlags ;;;
        let! result :=
          check_frameworks_base_boot_hidden_api_files self result in
        ret (self, result)
  | None => ret (self, result)
  end.

(** [analyze], lines 358 to 378: the change to the Android.bp file that
    carries the property changes. *)
Definition add_android_bp_change (self : BcpfAnalyzer) (result : Result)
  : M Result :=
  match property_changes result with
  | [] => ret result
  | _ =>
      let! bcpf_dir := lift (module_path self (bcpf self)) in
      let bcpf_bp_file :=
        Py.path_join (Py.path_join (top_dir self) bcpf_dir) "Android.bp" in
      let hiddenapi_snippet :=
        fold_left
          (fun hiddenapi_snippet property_change =>
             hiddenapi_snippet +:+ snippet property_change "        ")
          (property_changes result) "" in
      let hiddenapi_snippet := Py.strip "010" hiddenapi_snippet in
      ret (append_file_change result
             (new_file_change self bcpf_bp_file
                (nl +:+ "Add the following snippet into the " +:+ bcpf self
                 +:+ " bootclasspath_fragment module" +:+ nl
                 +:+ "in the " +:+ bcpf_dir
                 +:+ "/Android.bp file. If the hidden_api block already exists then"
                 +:+ nl +:+ "merge these properties into it." +:+ nl +:+ nl
                 +:+ "    hidden_api: {" +:+ nl +:+ hiddenapi_snippet +:+ nl
                 +:+ "    }," +:+ nl)))
  end.

(** [analyze], lines 380 to 388: the file changes, sorted and reported. *)
Definition report_file_changes (file_changes : list FileChange) : M unit :=
  match file_changes with
  | [] => ret tt
  | _ =>
      report ModificationsHeader ;;;
      let file_changes := list_sort FileChange_lt file_changes in
      fold_right
        (fun file_change rest =>
           report (Modification (path file_change)
                                (description file_change)) ;;; rest)
        (ret tt) file_changes
  end.

Definition analyze (self : BcpfAnalyzer) : M unit :=
  report (Analyzing (bcpf self)) ;;;
  report (BeforeYouStart (bcpf self) (apex self) (sdk self)) ;;;
  let! self := load_module_info self in
  report Cleaning ;;;
  (* the argument of the second [shutil.rmtree] *)
  let! _ := lift (module_out_dir self (bcpf self)) in
  let! _ := build_monolithic_stubs_flags self in
  let result := new_Result in
  let! (self, result) := build_monolithic_flags self result in
  let! result := add_android_bp_change self result in
  report_file_changes (file_changes result).

End Analyzer.

(** ** Vocabulary of the statements *)

(** The comma-separated fields of a report line behind its prefix. *)
Definition fields (prefix line : string) : list string :=
  Py.split (Py.removeprefix line prefix) ",".

(** A module line and a monolithic line that pass the checks of the
    scanner: both prefixes present and the same signature in field 0. *)
Definition well_formed (module_line monolithic_line : string) : bool :=
  Py.startswith module_line "< " && Py.startswith monolithic_line "> "
  && String.eqb (hd "" (fields "< " module_line))
                (hd "" (fields "> " monolithic_line)).

(** The lines of a run of triples whose separator lines are blank. *)
Definition entry_lines (triples : list (string * string)) : list string :=
  flat_map (fun '(m, p) => [m; p; ""]) triples.

(** The signature and the pair of flag lists a triple stands for. *)
Definition entry_signature (t : string * string) : string :=
  hd "" (fields "< " (fst t)).

Definition entry_flags (t : string * string) : list string * list string :=
  (tl (fields "< " (fst t)), tl (fields "> " (snd t))).

(** The entries such triples leave in the diffs, written in order. *)
Definition record_entries (triples : list (string * string)) (diffs : DiffMap)
  : DiffMap :=
  fold_left (fun diffs t => <[entry_signature t := entry_flags t]> diffs)
            triples diffs.

(** The lines of the triples of one report section behind its header: blank
    separator lines between the triples and [separator] after the last. *)
Fixpoint section_lines (triples : list (string * string)) (separator : string)
  : list string :=
  match triples with
  | [] => []
  | [(m, p)] => [m; p; separator]
  | (m, p) :: triples' => m :: p :: "" :: section_lines triples' separator
  end.

(** What the scanner reports about the header of a section: nothing when
    the module line names the output directory of the fragment. *)
Definition header_reports (bcpf_dir bcpf module_line : string) : list Report :=
  if Py.contains (Py.path_join bcpf_dir bcpf) module_line then []
  else [FilteringOut module_line].

(** A header whose module and monolithic lines carry their prefixes. *)
Definition header_ok (module_line monolithic_line : string) : bool :=
  Py.startswith module_line "< " && Py.startswith monolithic_line "> ".

(** The build output makes the scanner consume a malformed triple: the
    lines up to the first marker are passed over; behind a marker comes a
    header, which may itself lack a prefix, and then triples, of which one
    may be malformed; a section that ends on a non-blank separator line
    hands that line and the rest back to the loops of
    [build_hiddenapi_flags], which may arrive at a malformed triple later. *)
Inductive consumes_malformed : list string → Prop :=
| cm_pass line rest :
    line ≠ _INCONSISTENT_FLAGS →
    consumes_malformed rest →
    consumes_malformed (line :: rest)
| cm_header hm hp hs rest :
    header_ok hm hp = false →
    consumes_malformed (_INCONSISTENT_FLAGS :: hm :: hp :: hs :: rest)
| cm_entry hm hp triples m p s rest :
    header_ok hm hp = true →
    Forall (fun '(m, p) => well_formed m p = true) triples →
    well_formed m p = false →
    consumes_malformed
      (_INCONSISTENT_FLAGS :: hm :: hp :: ""
         :: entry_lines triples ++ m :: p :: s :: rest)
| cm_later hm hp triples separator rest :
    header_ok hm hp = true →
    Forall (fun '(m, p) => well_formed m p = true) triples →
    triples ≠ [] → separator ≠ "" →
    consumes_malformed (separator :: rest) →
    consumes_malformed
      (_INCONSISTENT_FLAGS :: hm :: hp :: ""
         :: section_lines triples separator ++ rest).

(** The paths of the file changes a console log shows, in order. *)
Definition rendered_paths (log : list Report) : list string :=
  flat_map (fun r => match r with Modification p _ => [p] | _ => [] end) log.

(** An iteration order of sets: every member once. *)
Definition enumerates (order : gset string → list string) : Prop :=
  ∀ X, NoDup (order X) ∧ ∀ x, x ∈ order X ↔ x ∈ X.

(** Ordered by path. *)
Definition path_le (a b : FileChange) : Prop := String.le (path a) (path b).

(** The loop of [load_all_flags] adds to the two sets and leaves the other
    fields of [self] alone. *)
Definition add_all_flags (self : BcpfAnalyzer) (lines : list string)
  : BcpfAnalyzer :=
  fold_left
    (fun self line =>
       add_signature_and_class self (line_to_signature line)
         (signature_to_class (line_to_signature line)))
    lines self.

(** ** A concrete checkout *)

Module Fixture.

(** module-info.json: the fragment [bcpf] is defined in [bcpf-dir]. *)
Definition module_info_json : ModuleInfo :=
  {| modules := {[ "bcpf" := ["bcpf-dir"] ]} |}.

(** The analyzer as [main] constructs it, and after [load_module_info]. *)
Definition fresh : BcpfAnalyzer :=
  new_BcpfAnalyzer "/src/" "/src/out" "out/product" "bcpf" "apex" "sdk".

Definition loaded : BcpfAnalyzer := set_module_info fresh module_info_json.

Definition all_flags_csv : string :=
  "/src/out/soong/.intermediates/bcpf-dir/bcpf/modular/all-flags.csv".

Definition hiddenapi_dir : string := "/src/frameworks/base/boot/hiddenapi".

(** [textwrap.indent] on a text whose lines end in newlines only. *)
Definition indent (text prefix : string) : string :=
  Py.join nl
    (map (fun line =>
            if Py.truthy (Py.lstrip_space line) then prefix +:+ line
            else line)
         (Py.split text nl)).

(** A checkout in which the builds behave as [builds] says, all-flags.csv
    holds [all_flags] and the override directory holds [overrides].  Paths
    are made relative by dropping the top directory, a text is wrapped as
    one line (none for the empty text, the only comment the script
    writes), and a set is iterated in the order of [elements]. *)
Definition env (builds : string → BuildOperation) (all_flags : list string)
    (overrides : list (string * list string)) : Env :=
  {| soong_ui := builds;
     json_load file :=
       if String.eqb file "/src/out/product/module-info.json"
       then Return module_info_json else Raise (OSError file);
     os_walk dir :=
       if String.eqb dir "/src/out/soong/.intermediates/bcpf-dir/bcpf"
       then [(dir, ["flags.csv"]);
             (dir +:+ "/modular", ["all-flags.csv"; "index.csv"])]
       else [];
     os_listdir dir :=
       if String.eqb dir hiddenapi_dir then Return (map fst overrides)
       else Raise (OSError dir);
     readlines file :=
       if String.eqb file all_flags_csv
       then Return (map (fun l => l +:+ nl) all_flags)
       else
         match
           find (fun o => String.eqb file (hiddenapi_dir +:+ "/" +:+ fst o))
                overrides
         with
         | Some o => Return (map (fun l => l +:+ nl) (snd o))
         | None => Raise (OSError file)
         end;
     relpath file start := Py.removeprefix file start;
     textwrap_wrap text width := if Py.truthy text then [text] else [];
     textwrap_indent := indent;
     set_order := elements |}.

(** Every build succeeds and prints nothing, but for the flags file,
    whose build prints [output] and ends with [status]. *)
Definition flags_build (output : list string) (status : Z)
  : string → BuildOperation :=
  fun target =>
    if String.eqb target _FLAGS_FILE
    then {| lines := output; returncode := Some status |}
    else {| lines := []; returncode := Some 0%Z |}.

(** A report section about another module, and one about the fragment. *)
Definition other_section : list string :=
  [ _INCONSISTENT_FLAGS;
    "< out/soong/.intermediates/other-dir/other/filtered-flags.csv";
    "> out/soong/hiddenapi/hiddenapi-flags.csv";
    "";
    "< Lother/Gadget;->NAME:S,blocked";
    "> Lother/Gadget;->NAME:S,lo-prio";
    "ninja failed with: exit status 1" ].

Definition header_module : string :=
  "< out/soong/.intermediates/bcpf-dir/bcpf/filtered-flags.csv".

Definition header_monolithic : string :=
  "> out/soong/hiddenapi/hiddenapi-flags.csv".

End Fixture.

(** A checkout whose catalog holds A and B and whose override file holds
    A, C and D. *)
Definition override_env : Env :=
  Fixture.env (fun _ => {| lines := []; returncode := Some 0%Z |})
              ["LA;->a()V,blocked"; "LB;->b()V,blocked"]
              [("hiddenapi-max-target-o.txt",
                ["LA;->a()V"; "LC;->c()V"; "LD;->d()V"])].

Definition override_self : BcpfAnalyzer :=
  add_all_flags Fixture.loaded ["LA;->a()V,blocked"; "LB;->b()V,blocked"].

(** A checkout in which the build of the flags file reports an
    inconsistency of the fragment and fails with exit status 1. *)
Definition failing_flags_env : Env :=
  Fixture.env
    (Fixture.flags_build
       [ _INCONSISTENT_FLAGS;
         Fixture.header_module; Fixture.header_monolithic; "";
         "< LA;->a()V,blocked"; "> LA;->a()V,max-target-o";
         "ninja failed with: exit status 1" ]
       1)
    ["LA;->a()V,blocked"; "LB;->b()V,blocked"]
    [("hiddenapi-max-target-o.txt", ["LA;->a()V"; "LC;->c()V"; "LD;->d()V"])].

(** A checkout in which the build of module-info.json fails. *)
Definition failing_module_info_env : Env :=
  Fixture.env (fun _ => {| lines := []; returncode := Some 1%Z |}) [] [].

(** ** Computations *)

Lemma bind_ret {A B} (a : A) (k : A → M B) : bind ([], Return a) k = k a.
Proof. unfold bind. destruct (k a). reflexivity. Qed.

Lemma bind_raise {A B} out e (k : A → M B) :
  bind (out, Raise e) k = (out, Raise e).
Proof. reflexivity. Qed.

Lemma bind_ret_r {A} (m : M A) : bind m ret = m.
Proof.
  destruct m as [out [a | e]]; cbn; [rewrite app_nil_r |]; reflexivity.
Qed.

Lemma bind_return {A B} out (a : A) (k : A → M B) :
  bind (out, Return a) k = (out ++ fst (k a), snd (k a)).
Proof. unfold bind. destruct (k a). reflexivity. Qed.

Lemma bind_snd_raise {A B} (m : M A) (k : A → M B) e :
  snd m = Raise e → snd (bind m k) = Raise e.
Proof.
  destruct m as [out [a | e']]; intros H; cbn in H; [discriminate |].
  injection H as ->. reflexivity.
Qed.

(** Runs a computation symbolically through the steps that are values. *)
Ltac msimpl :=
  unfold lift, ret, raise, report;
  repeat (first [rewrite bind_ret | rewrite bind_return | rewrite bind_raise];
          cbv beta; cbn [fst snd app]).

(** ** The report scanner *)

Lemma check_inconsistent_flag_lines_ok significant m p :
  Py.startswith m "< " = true → Py.startswith p "> " = true →
  check_inconsistent_flag_lines significant m p "" = ([], Return tt).
Proof.
  intros Hm Hp. unfold check_inconsistent_flag_lines.
  rewrite Hm, Hp. reflexivity.
Qed.

Lemma check_inconsistent_flag_lines_exit significant m p s :
  Py.startswith m "< " && Py.startswith p "> " = false →
  check_inconsistent_flag_lines significant m p s
  = ([InvalidBuildOutput m p s], Raise (SystemExit 1)).
Proof.
  intros H. unfold check_inconsistent_flag_lines. rewrite H. reflexivity.
Qed.

(** Significance reaches only the debug log: the scan does not depend on
    it. *)
Lemma scan_triples_significant lines :
  ∀ diffs, scan_triples true lines diffs = scan_triples false lines diffs.
Proof.
  induction lines as [| | | m p s lines IH] using list_ind3;
    intros diffs; try reflexivity.
  rewrite !scan_triples_unfold.
  change (check_inconsistent_flag_lines true m p "")
    with (check_inconsistent_flag_lines false m p "").
  destruct (check_inconsistent_flag_lines_cases false m p "") as [-> | ->];
    [| reflexivity].
  rewrite !bind_ret. cbv zeta.
  match goal with
  | |- context [negb (String.eqb ?a ?b)] => destruct (negb (String.eqb a b))
  end; [reflexivity |].
  destruct (Py.truthy s); [reflexivity | apply IH].
Qed.

(** One well-formed triple with a blank separator is recorded and the
    scan goes on. *)
Lemma scan_triples_step significant m p lines diffs :
  well_formed m p = true →
  scan_triples significant (m :: p :: "" :: lines) diffs
  = scan_triples significant lines (record_entries [(m, p)] diffs).
Proof.
  unfold well_formed. intros H.
  apply andb_prop in H as [H Hsig]. apply andb_prop in H as [Hm Hp].
  rewrite scan_triples_unfold.
  rewrite check_inconsistent_flag_lines_ok, bind_ret by assumption.
  cbv zeta. unfold fields in Hsig. rewrite Hsig. reflexivity.
Qed.

Lemma scan_triples_entries significant triples :
  ∀ lines diffs,
    Forall (fun '(m, p) => well_formed m p = true) triples →
    scan_triples significant (entry_lines triples ++ lines) diffs
    = scan_triples significant lines (record_entries triples diffs).
Proof.
  induction triples as [| [m p] triples IH]; intros lines diffs Hwf;
    [reflexivity |].
  inversion Hwf as [| ? ? Hmp Hrest]; subst.
  change (entry_lines ((m, p) :: triples) ++ lines)
    with (m :: p :: "" :: (entry_lines triples ++ lines)).
  rewrite scan_triples_step by assumption.
  apply IH, Hrest.
Qed.

(** Fewer than three lines do not make a triple: the loop ends. *)
Lemma scan_triples_short significant tail diffs :
  length tail < 3 →
  scan_triples significant tail diffs = ([], Return ("", diffs, [])).
Proof.
  destruct tail as [| a [| b [| c tail]]]; cbn; intros H;
    [reflexivity .. | lia].
Qed.

(** A malformed triple ends the run. *)
Lemma scan_triples_malformed significant m p s lines diffs :
  well_formed m p = false →
  snd (scan_triples significant (m :: p :: s :: lines) diffs)
  = Raise (SystemExit 1).
Proof.
  unfold well_formed. intros H. rewrite scan_triples_unfold.
  destruct (Py.startswith m "< " && Py.startswith p "> ") eqn:Hpre.
  - apply andb_prop in Hpre as [Hm Hp].
    rewrite check_inconsistent_flag_lines_ok, bind_ret by assumption.
    cbn in H. cbv zeta. unfold fields in H. rewrite H. reflexivity.
  - rewrite check_inconsistent_flag_lines_exit by assumption. reflexivity.
Qed.

Lemma scan_triples_section significant triples separator :
  ∀ rest diffs,
    Forall (fun '(m, p) => well_formed m p = true) triples →
    (triples ≠ [] ∧ separator ≠ "") ∨ (separator = "" ∧ length rest < 3) →
    scan_triples significant (section_lines triples separator ++ rest) diffs
    = ([], Return (separator, record_entries triples diffs,
                   if Py.truthy separator then rest else [])).
Proof.
  induction triples as [| [m p] triples IH]; intros rest diffs Hwf Hend.
  - destruct Hend as [[Hne _] | [-> Hshort]]; [congruence |].
    apply scan_triples_short, Hshort.
  - inversion Hwf as [| ? ? Hmp Hrest]; subst.
    destruct triples as [| t triples].
    + cbn [section_lines app].
      unfold well_formed in Hmp.
      apply andb_prop in Hmp as [Hpre Hsig].
      apply andb_prop in Hpre as [Hm Hp].
      rewrite scan_triples_unfold.
      rewrite check_inconsistent_flag_lines_ok, bind_ret by assumption.
      cbv zeta. unfold fields in Hsig. rewrite Hsig. cbn [negb].
      destruct (Py.truthy separator) eqn:Hsep; [reflexivity |].
      destruct Hend as [[_ Hne] | [-> Hshort]].
      * apply negb_false_iff, String.eqb_eq in Hsep. contradiction.
      * apply scan_triples_short, Hshort.
    + change (section_lines ((m, p) :: t :: triples) separator ++ rest)
        with (m :: p :: ""
                :: (section_lines (t :: triples) separator ++ rest)).
      rewrite scan_triples_step by assumption.
      rewrite IH; [reflexivity | assumption |].
      destruct Hend as [[_ Hne] | Hshort]; [left | right; assumption].
      split; [discriminate | assumption].
Qed.

(** *** The entries recorded *)

Lemma record_entries_lookup_ne triples :
  ∀ diffs k,
    k ∉ map entry_signature triples →
    record_entries triples diffs !! k = diffs !! k.
Proof.
  induction triples as [| t triples IH]; intros diffs k Hk; [reflexivity |].
  cbn in Hk. apply not_elem_of_cons in Hk as [Hne Hk].
  cbn. rewrite IH by assumption. apply lookup_insert_ne. congruence.
Qed.

Lemma record_entries_lookup triples :
  ∀ diffs t,
    NoDup (map entry_signature triples) → t ∈ triples →
    record_entries triples diffs !! entry_signature t = Some (entry_flags t).
Proof.
  induction triples as [| t' triples IH]; intros diffs t Hnd Hin.
  - inversion Hin.
  - cbn in Hnd. apply NoDup_cons in Hnd as [Hfresh Hnd].
    apply elem_of_cons in Hin as [-> | Hin].
    + cbn. rewrite record_entries_lookup_ne by assumption.
      apply lookup_insert_eq.
    + cbn. apply IH; assumption.
Qed.

Lemma record_entries_dom triples :
  ∀ diffs,
    dom (record_entries triples diffs)
    = dom diffs ∪ list_to_set (map entry_signature triples).
Proof.
  induction triples as [| t triples IH]; intros diffs; cbn.
  - set_solver.
  - rewrite IH, dom_insert_L. set_solver.
Qed.

Lemma record_entries_size triples :
  NoDup (map entry_signature triples) →
  size (record_entries triples ∅) = length triples.
Proof.
  intros Hnd. rewrite <- size_dom, record_entries_dom, dom_empty_L.
  rewrite (left_id_L ∅ (∪)), size_list_to_set by assumption.
  apply length_map.
Qed.

(** *** Fields *)

Lemma append_cons a s t : String a s +:+ t = String a (s +:+ t).
Proof. reflexivity. Qed.

Lemma append_assoc s t u : (s +:+ t) +:+ u = s +:+ t +:+ u.
Proof.
  induction s as [| a s IH]; [reflexivity |].
  rewrite !append_cons, IH. reflexivity.
Qed.

Lemma rev_app_append s : ∀ t, String.rev_app s t = String.rev s +:+ t.
Proof.
  unfold String.rev.
  induction s as [| a s IH]; intros t; [reflexivity |].
  cbn [String.rev_app]. rewrite (IH (String a "")), IH, append_assoc.
  reflexivity.
Qed.

Lemma rev_cons a s : String.rev (String a s) = String.rev s +:+ String a "".
Proof. unfold String.rev at 1. cbn [String.rev_app]. apply rev_app_append. Qed.

Lemma split_go_nonempty sep s : ∀ skip cur, Py.split_go sep skip cur s ≠ [].
Proof.
  induction s as [| a s IH]; intros skip cur; [discriminate |].
  cbn [Py.split_go]. destruct skip; [| apply IH].
  destruct (Py.startswith _ _); [discriminate | apply IH].
Qed.

Lemma split_nonempty s sep : Py.split s sep ≠ [].
Proof. apply split_go_nonempty. Qed.

(** Joining the fields of a line with the separator gives the line back:
    a split on one character loses nothing and keeps the order. *)
Lemma join_split_go c s :
  ∀ cur,
    Py.join (String c "") (Py.split_go (String c "") 0 cur s)
    = String.rev cur +:+ s.
Proof.
  induction s as [| a s IH]; intros cur.
  - cbn. induction (String.rev cur) as [| b r IHr]; [reflexivity |].
    rewrite append_cons, <- IHr. reflexivity.
  - cbn [Py.split_go Py.startswith String.length Nat.sub].
    destruct (Ascii.eqb c a) eqn:Hc; cbn [andb Py.startswith].
    + apply Ascii.eqb_eq in Hc as <-.
      destruct (Py.split_go (String c "") 0 "" s) as [| f fs] eqn:Hgo.
      { exfalso. revert Hgo. apply split_go_nonempty. }
      change (Py.join (String c "") (String.rev cur :: f :: fs))
        with (String.rev cur +:+ String c "" +:+
              Py.join (String c "") (f :: fs)).
      rewrite <- Hgo, IH. reflexivity.
    + rewrite IH, rev_cons, append_assoc. reflexivity.
Qed.

Lemma join_split c s : Py.join (String c "") (Py.split s (String c "")) = s.
Proof. apply join_split_go. Qed.

(** The signature and the flags of a line, joined by commas in that order,
    are the line behind its prefix. *)
Lemma fields_join prefix line :
  Py.join "," (hd "" (fields prefix line) :: tl (fields prefix line))
  = Py.removeprefix line prefix.
Proof.
  unfold fields.
  pose proof (split_nonempty (Py.removeprefix line prefix) ",") as Hne.
  rewrite <- (join_split "," (Py.removeprefix line prefix)) at 3.
  destruct (Py.split _ _); [congruence | reflexivity].
Qed.

(** *** Headers and the loops of [build_hiddenapi_flags] *)

Lemma scan_header self bcpf_dir hm hp lines :
  module_path self (bcpf self) = Return bcpf_dir →
  header_ok hm hp = true →
  scan_inconsistent_flags_report self (hm :: hp :: "" :: lines)
  = bind (header_reports bcpf_dir (bcpf self) hm, Return tt)
         (fun _ => scan_triples false lines ∅).
Proof.
  intros Hpath Hok. apply andb_prop in Hok as [Hm Hp].
  unfold scan_inconsistent_flags_report, header_reports.
  rewrite Hpath.
  msimpl.
  destruct (Py.contains _ _); msimpl;
    rewrite check_inconsistent_flag_lines_ok by assumption; msimpl;
    rewrite ?scan_triples_significant;
    destruct (scan_triples false lines ∅); reflexivity.
Qed.

Lemma scan_header_malformed self bcpf_dir hm hp hs lines :
  module_path self (bcpf self) = Return bcpf_dir →
  header_ok hm hp = false →
  snd (scan_inconsistent_flags_report self (hm :: hp :: hs :: lines))
  = Raise (SystemExit 1).
Proof.
  intros Hpath Hbad.
  unfold scan_inconsistent_flags_report.
  rewrite Hpath.
  msimpl.
  destruct (Py.contains _ _); msimpl;
    rewrite check_inconsistent_flag_lines_exit by assumption; reflexivity.
Qed.

Lemma while_inconsistent_pass self line lines diffs :
  line ≠ _INCONSISTENT_FLAGS →
  while_inconsistent self line lines diffs = for_line_in self lines diffs.
Proof.
  intros Hne. rewrite while_inconsistent_eq.
  apply String.eqb_neq in Hne. rewrite Hne.
  destruct lines; reflexivity.
Qed.

Lemma while_inconsistent_marker self lines diffs :
  while_inconsistent self _INCONSISTENT_FLAGS lines diffs
  = (let! (line', diffs', lines') :=
       scan_inconsistent_flags_report self lines in
     while_inconsistent self line' lines' (Some diffs')).
Proof. rewrite while_inconsistent_eq. reflexivity. Qed.

Lemma for_line_in_malformed self bcpf_dir stream :
  module_path self (bcpf self) = Return bcpf_dir →
  consumes_malformed stream →
  ∀ diffs, snd (for_line_in self stream diffs) = Raise (SystemExit 1).
Proof.
  intros Hpath Hcm.
  induction Hcm as [line rest Hne _ IH
                   | hm hp hs rest Hbad
                   | hm hp triples m p s rest Hok Hwf Hbad
                   | hm hp triples separator rest Hok Hwf Hne Hsep _ IH];
    intros diffs; cbn [for_line_in].
  - rewrite while_inconsistent_pass by assumption. apply IH.
  - rewrite while_inconsistent_marker. apply bind_snd_raise.
    eapply scan_header_malformed; eassumption.
  - rewrite while_inconsistent_marker. apply bind_snd_raise.
    rewrite (scan_header _ bcpf_dir) by assumption.
    rewrite bind_return. cbn [snd].
    rewrite scan_triples_entries by assumption.
    apply scan_triples_malformed, Hbad.
  - rewrite while_inconsistent_marker.
    rewrite (scan_header _ bcpf_dir) by assumption.
    rewrite scan_triples_section by (try assumption; left; split; assumption).
    apply String.eqb_neq in Hsep as Htruthy.
    unfold Py.truthy. rewrite Htruthy. cbn [negb].
    msimpl. apply (IH (Some _)).
Qed.


Lemma scan_unresolved self e a b c lines :
  module_path self (bcpf self) = Raise e →
  scan_inconsistent_flags_report self (a :: b :: c :: lines) = ([], Raise e).
Proof.
  intros Hpath. unfold scan_inconsistent_flags_report.
  rewrite Hpath. reflexivity.
Qed.

Lemma for_line_in_unresolved self e stream :
  module_path self (bcpf self) = Raise e →
  consumes_malformed stream →
  ∀ diffs, snd (for_line_in self stream diffs) = Raise e.
Proof.
  intros Hpath Hcm.
  induction Hcm as [line rest Hne _ IH | | |]; intros diffs;
    cbn [for_line_in].
  1: { rewrite while_inconsistent_pass by assumption. apply IH. }
  all: rewrite while_inconsistent_marker, (scan_unresolved _ e)
    by assumption; reflexivity.
Qed.

(** A triple is malformed when it fails one of the three checks. *)
Lemma well_formed_false m p :
  well_formed m p = false
  ↔ Py.startswith m "< " = false
    ∨ Py.startswith p "> " = false
    ∨ hd "" (fields "< " m) ≠ hd "" (fields "> " p).
Proof.
  unfold well_formed.
  rewrite !andb_false_iff, String.eqb_neq. tauto.
Qed.

(** ** The claims about the report scanner *)

(** C1, as the code has it.  The build output holds a single report section
    whose header names another module, so the section is not significant:
    the scanner reports that it filters the errors out, and still returns
    the entry of that section as the diffs of the build. *)
Theorem C1_filtered_section_is_returned :
  build_hiddenapi_flags
    (Fixture.env (Fixture.flags_build Fixture.other_section 1) [] [])
    Fixture.loaded _FLAGS_FILE
  = ([FilteringOut
        "< out/soong/.intermediates/other-dir/other/filtered-flags.csv"],
     Return (Some {[ "Lother/Gadget;->NAME:S" := (["blocked"], ["lo-prio"]) ]})).
Proof. vm_compute. reflexivity. Qed.

(** The same holds of every section: what the scan returns does not depend
    on the module its header names. *)
Lemma scan_result_ignores_the_header_module
    (self : BcpfAnalyzer) (bcpf_dir hm hm' hp : string) (lines : list string) :
  module_path self (bcpf self) = Return bcpf_dir →
  header_ok hm hp = true → header_ok hm' hp = true →
  snd (scan_inconsistent_flags_report self (hm :: hp :: "" :: lines))
  = snd (scan_inconsistent_flags_report self (hm' :: hp :: "" :: lines)).
Proof.
  intros Hpath Hok Hok'.
  rewrite !(scan_header _ bcpf_dir) by assumption.
  rewrite !bind_return. reflexivity.
Qed.

(** The diffs of a build are those of the section scanned last: a section
    about another module that follows one about the fragment replaces its
    entries, and one that precedes it leaves no trace. *)
Example sections_replace_each_other :
  let fragment_section :=
    [ _INCONSISTENT_FLAGS;
      Fixture.header_module; Fixture.header_monolithic; "";
      "< LA;->a()V,blocked"; "> LA;->a()V,max-target-o" ] in
  snd (for_line_in Fixture.loaded
         (fragment_section ++ Fixture.other_section) None)
  = Return (Some {[ "Lother/Gadget;->NAME:S" := (["blocked"], ["lo-prio"]) ]})
  ∧ snd (for_line_in Fixture.loaded
           (removelast Fixture.other_section ++ fragment_section ++ [""])
           None)
    = Return (Some {[ "LA;->a()V" := (["blocked"], ["max-target-o"]) ]}).
Proof. vm_compute. split; reflexivity. Qed.

(** C2, refuted: a stream that ends after the module line of its second
    triple is scanned without any error; the incomplete triple is dropped
    and the entry before it is returned. *)
Lemma C2_truncated_triple_is_dropped :
  scan_inconsistent_flags_report Fixture.loaded
    [ Fixture.header_module; Fixture.header_monolithic; "";
      "< LA;->f()V,blocked"; "> LA;->f()V,max-target-o"; "";
      "< LB;->g()V,blocked" ]
  = ([], Return ("", {[ "LA;->f()V" := (["blocked"], ["max-target-o"]) ]}, [])).
Proof. vm_compute. reflexivity. Qed.

(** C2, amended.  A stream that ends inside the header triple of a section
    ends the run with [StopIteration]; a stream that ends inside a later
    triple is scanned without error: the incomplete triple is dropped and
    the entries of the complete triples before it are returned, with an
    empty line as the line that ended the report. *)
Theorem C2_truncated_stream
    (self : BcpfAnalyzer) (bcpf_dir hm hp : string)
    (triples : list (string * string)) (tail : list string) :
  module_path self (bcpf self) = Return bcpf_dir →
  header_ok hm hp = true →
  Forall (fun '(m, p) => well_formed m p = true) triples →
  length tail < 3 →
  scan_inconsistent_flags_report self tail = ([], Raise StopIteration)
  ∧ scan_inconsistent_flags_report
      self (hm :: hp :: "" :: entry_lines triples ++ tail)
    = (header_reports bcpf_dir (bcpf self) hm,
       Return ("", record_entries triples ∅, [])).
Proof.
  intros Hpath Hok Hwf Hshort. split.
  - destruct tail as [| a [| b [| c tail]]]; cbn in Hshort;
      [reflexivity .. | lia].
  - rewrite (scan_header _ bcpf_dir) by assumption.
    rewrite scan_triples_entries by assumption.
    rewrite scan_triples_short by assumption.
    msimpl. rewrite app_nil_r. reflexivity.
Qed.

Lemma C2_truncated_stream_witness :
  scan_inconsistent_flags_report Fixture.loaded ["< LB;->g()V,blocked"]
  = ([], Raise StopIteration)
  ∧ scan_inconsistent_flags_report Fixture.loaded
      (Fixture.header_module :: Fixture.header_monolithic :: ""
         :: entry_lines [("< LA;->f()V,blocked", "> LA;->f()V,max-target-o")]
         ++ ["< LB;->g()V,blocked"])
    = (header_reports "bcpf-dir" "bcpf" Fixture.header_module,
       Return ("",
               record_entries
                 [("< LA;->f()V,blocked", "> LA;->f()V,max-target-o")] ∅,
               [])).
Proof.
  apply (C2_truncated_stream Fixture.loaded "bcpf-dir").
  - reflexivity.
  - reflexivity.
  - repeat constructor.
  - cbn. lia.
Defined.

(** C3.  Whenever the build output makes the scanner consume a triple whose
    module line lacks the prefix "< ", whose monolithic line lacks the
    prefix "> ", or whose two signatures differ, [build_hiddenapi_flags]
    ends with an exception: no such triple is passed over.  The exception
    is that of [sys.exit(1)], unless the module path of the fragment cannot
    be resolved, which ends the run at the header of the first section. *)
Theorem C3_malformed_triple_is_fatal
    (env : Env) (self : BcpfAnalyzer) (filename : string) :
  consumes_malformed (lines (build_file_read_output env self filename)) →
  ∃ e,
    snd (build_hiddenapi_flags env self filename) = Raise e
    ∧ ∀ bcpf_dir,
        module_path self (bcpf self) = Return bcpf_dir → e = SystemExit 1.
Proof.
  intros Hcm. unfold build_hiddenapi_flags.
  destruct (module_path self (bcpf self)) as [bcpf_dir | e] eqn:Hpath.
  - exists (SystemExit 1). split; [| reflexivity].
    apply bind_snd_raise. eapply for_line_in_malformed; eassumption.
  - exists e. split; [| discriminate].
    apply bind_snd_raise. apply for_line_in_unresolved; assumption.
Qed.

Lemma C3_malformed_triple_is_fatal_witness :
  ∃ e,
    snd (build_hiddenapi_flags
           (Fixture.env
              (Fixture.flags_build
                 [ "Starting the build";
                   _INCONSISTENT_FLAGS;
                   Fixture.header_module; Fixture.header_monolithic; "";
                   "< LA;->f()V,blocked"; "> LA;->f()V,max-target-o"; "";
                   "< LB;->g()V,blocked"; "LB;->g()V,max-target-o"; "" ]
                 1) [] [])
           Fixture.loaded _FLAGS_FILE)
    = Raise e
    ∧ ∀ bcpf_dir,
        module_path Fixture.loaded (bcpf Fixture.loaded) = Return bcpf_dir →
        e = SystemExit 1.
Proof.
  apply C3_malformed_triple_is_fatal.
  apply cm_pass; [discriminate |].
  apply (cm_entry Fixture.header_module Fixture.header_monolithic
                  [("< LA;->f()V,blocked", "> LA;->f()V,max-target-o")]
                  "< LB;->g()V,blocked" "LB;->g()V,max-target-o" "" []).
  - reflexivity.
  - repeat constructor.
  - reflexivity.
Defined.

Example C3_example :
  build_hiddenapi_flags
    (Fixture.env
       (Fixture.flags_build
          [ _INCONSISTENT_FLAGS;
            Fixture.header_module; Fixture.header_monolithic; "";
            "< LA;->f()V,blocked"; "> LB;->f()V,blocked"; "" ]
          1) [] [])
    Fixture.loaded _FLAGS_FILE
  = ([InconsistentSignatures "LA;->f()V" "LB;->f()V"], Raise (SystemExit 1)).
Proof. vm_compute. reflexivity. Qed.

(** C5.  A section whose header names the output directory of the fragment
    and whose triples are well formed, with signatures that differ from one
    triple to the next, is scanned without a report or an error; the diffs
    hold one entry for each triple, under its signature, made of the flags
    of the module line and the flags of the monolithic line; and the
    signature followed by the flags, joined by commas, is the text of the
    line behind its prefix, so the flags are the fields of the line in
    their order.  The section ends on a non-blank separator line or with
    the stream. *)
Theorem C5_significant_section_entries
    (self : BcpfAnalyzer) (bcpf_dir hm hp : string)
    (triples : list (string * string)) (separator : string)
    (rest : list string) :
  module_path self (bcpf self) = Return bcpf_dir →
  Py.contains (Py.path_join bcpf_dir (bcpf self)) hm = true →
  header_ok hm hp = true →
  Forall (fun '(m, p) => well_formed m p = true) triples →
  NoDup (map entry_signature triples) →
  (triples ≠ [] ∧ separator ≠ "") ∨ (separator = "" ∧ length rest < 3) →
  let diffs := record_entries triples ∅ in
  scan_inconsistent_flags_report
    self (hm :: hp :: "" :: section_lines triples separator ++ rest)
  = ([], Return (separator, diffs, if Py.truthy separator then rest else []))
  ∧ size diffs = length triples
  ∧ ∀ m p,
      (m, p) ∈ triples →
      ∃ signature module_flags monolithic_flags,
        diffs !! signature = Some (module_flags, monolithic_flags)
        ∧ Py.join "," (signature :: module_flags) = Py.removeprefix m "< "
        ∧ Py.join "," (signature :: monolithic_flags)
          = Py.removeprefix p "> ".
Proof.
  intros Hpath Hsig Hok Hwf Hnd Hend diffs. split; [| split].
  - rewrite (scan_header _ bcpf_dir) by assumption.
    unfold header_reports. rewrite Hsig.
    rewrite scan_triples_section by assumption.
    reflexivity.
  - apply record_entries_size, Hnd.
  - intros m p Hin.
    exists (entry_signature (m, p)), (fst (entry_flags (m, p))),
           (snd (entry_flags (m, p))).
    split; [| split].
    + rewrite <- surjective_pairing.
      apply record_entries_lookup; assumption.
    + apply fields_join.
    + rewrite Forall_forall in Hwf. specialize (Hwf _ Hin). cbn in Hwf.
      unfold well_formed in Hwf. apply andb_prop in Hwf as [_ Heq].
      apply String.eqb_eq in Heq.
      unfold entry_signature. cbn [fst snd entry_flags].
      rewrite Heq. apply fields_join.
Qed.

Lemma C5_significant_section_entries_witness :
  let triples :=
    [ ("< Lacme/test/Class;-><init>()V,blocked",
       "> Lacme/test/Class;-><init>()V,max-target-o");
      ("< Lacme/test/Gadget;->NAME:S,blocked,test-api",
       "> Lacme/test/Gadget;->NAME:S,lo-prio") ] in
  let diffs := record_entries triples ∅ in
  scan_inconsistent_flags_report Fixture.loaded
    (Fixture.header_module :: Fixture.header_monolithic :: ""
       :: section_lines triples "ninja failed with: exit status 1"
       ++ ["build stopped"])
  = ([], Return ("ninja failed with: exit status 1", diffs, ["build stopped"]))
  ∧ size diffs = 2
  ∧ ∀ m p,
      (m, p) ∈ triples →
      ∃ signature module_flags monolithic_flags,
        diffs !! signature = Some (module_flags, monolithic_flags)
        ∧ Py.join "," (signature :: module_flags) = Py.removeprefix m "< "
        ∧ Py.join "," (signature :: monolithic_flags)
          = Py.removeprefix p "> ".
Proof.
  intros triples.
  apply (C5_significant_section_entries
           Fixture.loaded "bcpf-dir" Fixture.header_module
           Fixture.header_monolithic triples
           "ninja failed with: exit status 1" ["build stopped"]).
  - reflexivity.
  - reflexivity.
  - reflexivity.
  - repeat constructor.
  - vm_compute. repeat constructor; set_solver.
  - left. split; discriminate.
Defined.

Example C5_example :
  scan_inconsistent_flags_report Fixture.loaded
    [ Fixture.header_module; Fixture.header_monolithic; "";
      "< Lacme/test/Class;-><init>()V,blocked";
      "> Lacme/test/Class;-><init>()V,max-target-o"; "";
      "< Lacme/test/Gadget;->NAME:S,blocked,test-api";
      "> Lacme/test/Gadget;->NAME:S,lo-prio";
      "ninja failed with: exit status 1";
      "build stopped" ]
  = ([],
     Return ("ninja failed with: exit status 1",
             {[ "Lacme/test/Class;-><init>()V"
                  := (["blocked"], ["max-target-o"]);
                "Lacme/test/Gadget;->NAME:S"
                  := (["blocked"; "test-api"], ["lo-prio"]) ]},
             ["build stopped"])).
Proof. vm_compute. reflexivity. Qed.


(** ** Sorting *)

Lemma lt_false_le x y : Py.lt y x = false → String.le x y.
Proof.
  unfold Py.lt, String.ltb, String.le, String.leb.
  rewrite (String.compare_antisym x y).
  destruct (String.compare y x); cbn; intros H; by simplify_eq.
Qed.

Lemma lt_true_le x y : Py.lt x y = true → String.le x y.
Proof.
  unfold Py.lt, String.ltb, String.le, String.leb.
  destruct (String.compare x y); cbn; intros H; by simplify_eq.
Qed.

Lemma lt_true_ne x y : Py.lt x y = true → x ≠ y.
Proof.
  intros Hlt ->. unfold Py.lt, String.ltb in Hlt.
  pose proof (String.compare_antisym y y) as Hanti.
  destruct (String.compare y y); cbn in Hanti; discriminate.
Qed.

Lemma le_lt_false x y : String.le x y → Py.lt y x = false.
Proof.
  intros Hle. destruct (Py.lt y x) eqn:Hlt; [| reflexivity].
  exfalso. apply (lt_true_ne _ _ Hlt).
  apply (anti_symm String.le); [apply lt_true_le, Hlt | exact Hle].
Qed.

Lemma sort_insert_perm {A} (lt : A → A → bool) x l :
  Permutation (sort_insert lt x l) (x :: l).
Proof.
  induction l as [| y l IH]; cbn; [reflexivity |].
  destruct (lt y x); [| reflexivity].
  rewrite IH. apply perm_swap.
Qed.

Lemma list_sort_perm {A} (lt : A → A → bool) l :
  Permutation (list_sort lt l) l.
Proof.
  induction l as [| x l IH]; cbn; [reflexivity |].
  rewrite sort_insert_perm, IH. reflexivity.
Qed.

Lemma sort_insert_sorted x l :
  StronglySorted path_le l →
  StronglySorted path_le (sort_insert FileChange_lt x l).
Proof.
  induction 1 as [| y l Hs IH Hall]; cbn.
  - repeat constructor.
  - destruct (FileChange_lt y x) eqn:Hlt.
    + constructor; [exact IH |].
      rewrite (sort_insert_perm FileChange_lt x l).
      constructor; [| exact Hall].
      apply lt_true_le, Hlt.
    + assert (path_le x y) as Hxy by apply lt_false_le, Hlt.
      constructor; [constructor; assumption |].
      constructor; [exact Hxy |].
      eapply Forall_impl; [exact Hall |].
      intros z Hyz. unfold path_le in *. etrans; eassumption.
Qed.

Lemma list_sort_sorted l : StronglySorted path_le (list_sort FileChange_lt l).
Proof.
  induction l as [| x l IH]; cbn; [constructor |].
  apply sort_insert_sorted, IH.
Qed.

(** Stability: the changes of one path keep their order. *)
Lemma sort_insert_stable p x l :
  filter (fun c => path c = p) (sort_insert FileChange_lt x l)
  = filter (fun c => path c = p) (x :: l).
Proof.
  induction l as [| y l IH]; [reflexivity |].
  cbn [sort_insert]. destruct (FileChange_lt y x) eqn:Hlt; [| reflexivity].
  apply lt_true_ne in Hlt.
  rewrite filter_cons, IH, !filter_cons.
  repeat case_decide; congruence.
Qed.

Lemma list_sort_stable p l :
  filter (fun c => path c = p) (list_sort FileChange_lt l)
  = filter (fun c => path c = p) l.
Proof.
  induction l as [| x l IH]; [reflexivity |].
  cbn [list_sort]. rewrite sort_insert_stable, !filter_cons, IH.
  reflexivity.
Qed.

Lemma list_sort_sorted_id l :
  StronglySorted path_le l → list_sort FileChange_lt l = l.
Proof.
  induction 1 as [| x l Hs IH Hall]; [reflexivity |].
  cbn [list_sort]. rewrite IH.
  destruct l as [| y l]; [reflexivity |].
  cbn [sort_insert]. inversion Hall as [| ? ? Hxy _]; subst.
  unfold FileChange_lt. rewrite le_lt_false by exact Hxy. reflexivity.
Qed.

Lemma report_each_file_change l :
  fold_right
    (fun file_change rest =>
       report (Modification (path file_change) (description file_change)) ;;;
       rest)
    (ret tt) l
  = (map (fun c => Modification (path c) (description c)) l, Return tt).
Proof.
  induction l as [| c l IH]; [reflexivity |].
  cbn [fold_right map]. rewrite IH. reflexivity.
Qed.

Lemma rendered_paths_modifications l :
  rendered_paths (map (fun c => Modification (path c) (description c)) l)
  = map path l.
Proof.
  induction l as [| c l IH]; [reflexivity |].
  cbn. f_equal. exact IH.
Qed.

(** C9.  The file changes are reported in the order in which [list.sort]
    leaves them, [FileChange.__lt__] comparing paths: the paths read off the
    console log are those of the sorted list; that list is in ascending
    order of path, holds the accumulated changes and no others, keeps the
    changes of one path in the order in which they were appended, and is
    left as it is by a second sort. *)
Theorem C9_file_changes_are_reported_sorted (changes : list FileChange) :
  let sorted := list_sort FileChange_lt changes in
  rendered_paths (fst (report_file_changes changes)) = map path sorted
  ∧ snd (report_file_changes changes) = Return tt
  ∧ StronglySorted path_le sorted
  ∧ Permutation sorted changes
  ∧ (∀ p, filter (fun c => path c = p) sorted
          = filter (fun c => path c = p) changes)
  ∧ list_sort FileChange_lt sorted = sorted.
Proof.
  intros sorted. repeat split.
  - unfold report_file_changes.
    destruct changes as [| c changes]; [reflexivity |].
    rewrite report_each_file_change. msimpl.
    apply rendered_paths_modifications.
  - unfold report_file_changes.
    destruct changes as [| c changes]; [reflexivity |].
    rewrite report_each_file_change. reflexivity.
  - apply list_sort_sorted.
  - apply list_sort_perm.
  - intros p. apply list_sort_stable.
  - apply list_sort_sorted_id, list_sort_sorted.
Qed.


Example C9_sort_is_stable :
  list_sort FileChange_lt
    [ {| path := "b/Android.bp"; description := "first" |};
      {| path := "a/flags.txt"; description := "second" |};
      {| path := "b/Android.bp"; description := "third" |} ]
  = [ {| path := "a/flags.txt"; description := "second" |};
      {| path := "b/Android.bp"; description := "first" |};
      {| path := "b/Android.bp"; description := "third" |} ].
Proof. reflexivity. Qed.

(** ** The signature catalog *)

Lemma add_all_flags_eq self lines :
  add_all_flags self lines
  = {| top_dir := top_dir self; out_dir := out_dir self;
       product_out_dir := product_out_dir self; bcpf := bcpf self;
       apex := apex self; sdk := sdk self;
       _signatures :=
         _signatures self ∪ list_to_set (map line_to_signature lines);
       _classes :=
         _classes self
         ∪ list_to_set
             (map (fun l => signature_to_class (line_to_signature l)) lines);
       module_info := module_info self |}.
Proof.
  unfold add_all_flags. revert self.
  induction lines as [| line lines IH]; intros self.
  - destruct self. cbn. f_equal; set_solver.
  - cbn [fold_left]. rewrite IH. cbn. f_equal; set_solver.
Qed.

Lemma load_all_flags_eq env self file raw :
  find_bootclasspath_fragment_output_file env self "all-flags.csv"
  = Return file →
  readlines env file = Return raw →
  load_all_flags env self
  = ([], Return (add_all_flags self (newline_stripping_iter raw))).
Proof.
  intros Hfile Hraw. unfold load_all_flags.
  rewrite Hfile. msimpl. rewrite Hraw. msimpl. reflexivity.
Qed.

Lemma load_all_flags_inv env self out self' :
  load_all_flags env self = (out, Return self') →
  ∃ file raw,
    find_bootclasspath_fragment_output_file env self "all-flags.csv"
    = Return file
    ∧ readlines env file = Return raw
    ∧ out = []
    ∧ self' = add_all_flags self (newline_stripping_iter raw).
Proof.
  unfold load_all_flags.
  destruct (find_bootclasspath_fragment_output_file env self "all-flags.csv")
    as [file | e]; msimpl; [| discriminate].
  destruct (readlines env file) as [raw | e] eqn:Hraw; msimpl;
    [| discriminate].
  intros [= <- <-]. exists file, raw. repeat split. exact Hraw.
Qed.

Lemma find_bootclasspath_fragment_output_file_add env self lines basename :
  find_bootclasspath_fragment_output_file env (add_all_flags self lines)
                                          basename
  = find_bootclasspath_fragment_output_file env self basename.
Proof. rewrite add_all_flags_eq. reflexivity. Qed.

Lemma add_all_flags_twice self lines :
  add_all_flags (add_all_flags self lines) lines = add_all_flags self lines.
Proof.
  rewrite !add_all_flags_eq. cbn. f_equal; set_solver.
Qed.


(** C7, refuted: [load_all_flags] is called on an analyzer that it has
    populated already, and returns as it did the first time. *)
Lemma C7_second_population_returns :
  let env := Fixture.env (fun _ => {| lines := []; returncode := Some 0%Z |})
                         ["LA;->f()V,blocked"; "LB;->g:I,unsupported"] [] in
  let populated :=
    add_all_flags Fixture.loaded
                  ["LA;->f()V,blocked"; "LB;->g:I,unsupported"] in
  load_all_flags env Fixture.loaded = ([], Return populated)
  ∧ signatures populated = Return {[ "LA;->f()V"; "LB;->g:I" ]}
  ∧ load_all_flags env populated = ([], Return populated).
Proof. vm_compute. repeat split; reflexivity. Qed.

(** C7, amended.  Querying the signatures or the classes of an analyzer as
    [main] constructs it, before any population, raises the "has not been
    initialized" exception.  A second call of [load_all_flags] is not an
    error: it reads the file again and returns with the two sets as the
    first call left them. *)
Theorem C7_catalog_before_and_after_population
    (env : Env) (top out product b a s : string)
    (self self' : BcpfAnalyzer) (reports : list Report) :
  load_all_flags env self = (reports, Return self') →
  signatures (new_BcpfAnalyzer top out product b a s)
  = Raise (NotInitialized "signatures")
  ∧ classes (new_BcpfAnalyzer top out product b a s)
    = Raise (NotInitialized "classes")
  ∧ load_all_flags env self' = (reports, Return self').
Proof.
  intros Hload. split; [reflexivity | split; [reflexivity |]].
  apply load_all_flags_inv in Hload as (file & raw & Hfile & Hraw & -> & ->).
  rewrite (load_all_flags_eq env _ file raw).
  - rewrite add_all_flags_twice. reflexivity.
  - rewrite find_bootclasspath_fragment_output_file_add. exact Hfile.
  - exact Hraw.
Qed.

Lemma C7_catalog_before_and_after_population_witness :
  let env := Fixture.env (fun _ => {| lines := []; returncode := Some 0%Z |})
                         ["LA;->f()V,blocked"] [] in
  let populated := add_all_flags Fixture.loaded ["LA;->f()V,blocked"] in
  signatures (new_BcpfAnalyzer "/src/" "/src/out" "out/product"
                               "bcpf" "apex" "sdk")
  = Raise (NotInitialized "signatures")
  ∧ classes (new_BcpfAnalyzer "/src/" "/src/out" "out/product"
                              "bcpf" "apex" "sdk")
    = Raise (NotInitialized "classes")
  ∧ load_all_flags env populated = ([], Return populated).
Proof.
  intros env populated.
  apply (C7_catalog_before_and_after_population
           env "/src/" "/src/out" "out/product" "bcpf" "apex" "sdk"
           Fixture.loaded populated []).
  vm_compute. reflexivity.
Defined.

(** C10.  When all-flags.csv yields no line, [load_all_flags] returns with
    [self] as it was; on an analyzer whose sets were empty before, the
    queries of signatures and of classes go on raising the "has not been
    initialized" exception although the population has taken place. *)
Theorem C10_empty_population_is_not_seen
    (env : Env) (self : BcpfAnalyzer) (file : string) (raw : list string) :
  find_bootclasspath_fragment_output_file env self "all-flags.csv"
  = Return file →
  readlines env file = Return raw →
  newline_stripping_iter raw = [] →
  _signatures self = ∅ →
  _classes self = ∅ →
  load_all_flags env self = ([], Return self)
  ∧ signatures self = Raise (NotInitialized "signatures")
  ∧ classes self = Raise (NotInitialized "classes").
Proof.
  intros Hfile Hraw Hnone Hsigs Hclasses. repeat split.
  - rewrite (load_all_flags_eq env self file raw) by assumption.
    rewrite Hnone. reflexivity.
  - unfold signatures. rewrite Hsigs. reflexivity.
  - unfold classes. rewrite Hclasses. reflexivity.
Qed.

Lemma C10_empty_population_is_not_seen_witness :
  let env := Fixture.env (fun _ => {| lines := []; returncode := Some 0%Z |})
                         [] [] in
  load_all_flags env Fixture.loaded = ([], Return Fixture.loaded)
  ∧ signatures Fixture.loaded = Raise (NotInitialized "signatures")
  ∧ classes Fixture.loaded = Raise (NotInitialized "classes").
Proof.
  intros env.
  apply (C10_empty_population_is_not_seen env Fixture.loaded
                                          Fixture.all_flags_csv []);
    reflexivity.
Defined.


(** ** The override files *)

Lemma match_signatures_eq self lines :
  _signatures self ≠ ∅ →
  ∀ matched,
    match_signatures self lines matched
    = Return (matched ∪ (list_to_set lines ∩ _signatures self)).
Proof.
  intros Hpop.
  induction lines as [| signature lines IH]; intros matched.
  - cbn. f_equal. set_solver.
  - cbn [match_signatures]. unfold signatures.
    destruct (decide (_signatures self = ∅)); [contradiction |].
    destruct (decide (signature ∈ _signatures self));
      rewrite IH; f_equal; set_solver.
Qed.

(** C6.  With a populated catalog, scanning an override file whose lines
    hold no signature of the catalog leaves the result as it was.
    Otherwise the result gains two file changes and one property change
    and nothing else: the removal of the matched signatures from the
    override file, their addition to the file of the fragment, and the
    property that names that file.  Both descriptions list the same
    entries: each signature that is both a line of the override file and
    in the catalog, once. *)
Theorem C6_override_file_changes
    (env : Env) (self : BcpfAnalyzer) (result : Result)
    (property_name flags_file rel_bcpf_flags_file bcpf_flags_file : string)
    (raw : list string) :
  enumerates (set_order env) →
  _signatures self ≠ ∅ →
  readlines env flags_file = Return raw →
  let signatures_read := newline_stripping_iter raw in
  let changed :=
    report_hidden_api_flag_file_changes
      env self result property_name flags_file rel_bcpf_flags_file
      bcpf_flags_file in
  ((∀ signature, signature ∈ signatures_read → signature ∉ _signatures self) →
   changed = ([], Return result))
  ∧ ((∃ signature, signature ∈ signatures_read ∧ signature ∈ _signatures self) →
     ∃ entries,
       NoDup entries
       ∧ (∀ signature,
            signature ∈ entries
            ↔ signature ∈ signatures_read ∧ signature ∈ _signatures self)
       ∧ let insert :=
           textwrap_indent env (Py.join nl entries) "            " in
         changed
         = ([],
            Return
              {| diffs := diffs result;
                 property_changes :=
                   property_changes result
                   ++ [ {| property_name := property_name;
                           values := [rel_bcpf_flags_file];
                           property_comment := "" |} ];
                 file_changes :=
                   file_changes result
                   ++ [ {| path := relpath env flags_file (top_dir self);
                           description :=
                             "Remove the following entries:" +:+ nl
                             +:+ insert +:+ nl |};
                        {| path := relpath env bcpf_flags_file (top_dir self);
                           description :=
                             "Add the following entries:" +:+ nl
                             +:+ insert +:+ nl |} ] |})).
Proof.
  intros Horder Hpop Hraw signatures_read changed.
  subst changed. unfold report_hidden_api_flag_file_changes.
  rewrite Hraw. msimpl.
  rewrite match_signatures_eq by assumption. msimpl.
  fold signatures_read.
  assert (∅ ∪ (list_to_set signatures_read ∩ _signatures self)
          = (list_to_set signatures_read ∩ _signatures self : gset string))
    as -> by set_solver.
  split.
  - intros Hnone.
    destruct (decide (list_to_set signatures_read ∩ _signatures self
                      = (∅ : gset string))) as [_ | Hne];
      [reflexivity |].
    exfalso. apply Hne. set_solver.
  - intros (signature & Hread & Hin).
    destruct (decide (list_to_set signatures_read ∩ _signatures self
                      = (∅ : gset string))) as [Hempty | _].
    { exfalso. set_solver. }
    exists (set_order env (list_to_set signatures_read ∩ _signatures self)).
    destruct (Horder (list_to_set signatures_read ∩ _signatures self))
      as [Hnodup Hmem].
    split; [exact Hnodup |]. split.
    + intros x. rewrite Hmem. set_solver.
    + unfold append_property_change, append_file_change, new_file_change.
      cbn [diffs property_changes file_changes].
      rewrite <- app_assoc. reflexivity.
Qed.

Lemma enumerates_elements : enumerates elements.
Proof.
  intros X. split; [apply NoDup_elements |].
  intros x. apply elem_of_elements.
Qed.


Lemma C6_override_file_changes_witness :
  let signatures_read := ["LA;->a()V"; "LC;->c()V"; "LD;->d()V"] in
  let changed :=
    report_hidden_api_flag_file_changes
      override_env override_self new_Result "max_target_o_low_priority"
      "/src/frameworks/base/boot/hiddenapi/hiddenapi-max-target-o.txt"
      "hiddenapi/hiddenapi-max-target-o-low-priority.txt"
      "/src/bcpf-dir/hiddenapi/hiddenapi-max-target-o-low-priority.txt" in
  ((∀ signature,
      signature ∈ signatures_read → signature ∉ _signatures override_self) →
   changed = ([], Return new_Result))
  ∧ ((∃ signature,
        signature ∈ signatures_read ∧ signature ∈ _signatures override_self) →
     ∃ entries,
       NoDup entries
       ∧ (∀ signature,
            signature ∈ entries
            ↔ signature ∈ signatures_read
              ∧ signature ∈ _signatures override_self)
       ∧ let insert :=
           textwrap_indent override_env (Py.join nl entries) "            " in
         changed
         = ([],
            Return
              {| diffs := None;
                 property_changes :=
                   [] ++ [ {| property_name := "max_target_o_low_priority";
                        values :=
                          ["hiddenapi/hiddenapi-max-target-o-low-priority.txt"];
                        property_comment := "" |} ];
                 file_changes :=
                   [] ++ [ {| path :=
                          relpath override_env
                            "/src/frameworks/base/boot/hiddenapi/hiddenapi-max-target-o.txt"
                            "/src/";
                        description :=
                          "Remove the following entries:" +:+ nl
                          +:+ insert +:+ nl |};
                      {| path :=
                          relpath override_env
                            "/src/bcpf-dir/hiddenapi/hiddenapi-max-target-o-low-priority.txt"
                            "/src/";
                        description :=
                          "Add the following entries:" +:+ nl
                          +:+ insert +:+ nl |} ] |})).
Proof.
  apply (C6_override_file_changes
           override_env override_self new_Result "max_target_o_low_priority"
           "/src/frameworks/base/boot/hiddenapi/hiddenapi-max-target-o.txt"
           "hiddenapi/hiddenapi-max-target-o-low-priority.txt"
           "/src/bcpf-dir/hiddenapi/hiddenapi-max-target-o-low-priority.txt"
           ["LA;->a()V" +:+ nl; "LC;->c()V" +:+ nl; "LD;->d()V" +:+ nl]).
  - apply enumerates_elements.
  - apply (bool_decide_unpack _). vm_compute. exact I.
  - reflexivity.
Defined.

Example C6_example :
  report_hidden_api_flag_file_changes
    override_env override_self new_Result "max_target_o_low_priority"
    "/src/frameworks/base/boot/hiddenapi/hiddenapi-max-target-o.txt"
    "hiddenapi/hiddenapi-max-target-o-low-priority.txt"
    "/src/bcpf-dir/hiddenapi/hiddenapi-max-target-o-low-priority.txt"
  = ([],
     Return
       {| diffs := None;
          property_changes :=
            [ {| property_name := "max_target_o_low_priority";
                 values := ["hiddenapi/hiddenapi-max-target-o-low-priority.txt"];
                 property_comment := "" |} ];
          file_changes :=
            [ {| path := "frameworks/base/boot/hiddenapi/hiddenapi-max-target-o.txt";
                 description :=
                   "Remove the following entries:" +:+ nl
                   +:+ "            LA;->a()V" +:+ nl |};
              {| path := "bcpf-dir/hiddenapi/hiddenapi-max-target-o-low-priority.txt";
                 description :=
                   "Add the following entries:" +:+ nl
                   +:+ "            LA;->a()V" +:+ nl |} ] |}).
Proof. vm_compute. reflexivity. Qed.

(** C8.  For the override file hiddenapi-max-target-o.txt the file of the
    fragment is hiddenapi/hiddenapi-max-target-o-low-priority.txt and the
    property max_target_o_low_priority; for
    hiddenapi-max-target-r-loprio.txt they are
    hiddenapi/hiddenapi-max-target-r-low-priority.txt and
    max_target_r_low_priority.  The override file itself is read under its
    own name. *)
Theorem C8_legacy_names_are_remapped
    (env : Env) (self : BcpfAnalyzer) (hiddenapi_dir : string)
    (result : Result) :
  check_hidden_api_file env self hiddenapi_dir result
                        "hiddenapi-max-target-o.txt"
  = (let! bcpf_dir := lift (module_path self (bcpf self)) in
     report_hidden_api_flag_file_changes
       env self result "max_target_o_low_priority"
       (Py.path_join hiddenapi_dir "hiddenapi-max-target-o.txt")
       "hiddenapi/hiddenapi-max-target-o-low-priority.txt"
       (Py.path_join (Py.path_join (top_dir self) bcpf_dir)
                     "hiddenapi/hiddenapi-max-target-o-low-priority.txt"))
  ∧ check_hidden_api_file env self hiddenapi_dir result
                          "hiddenapi-max-target-r-loprio.txt"
    = (let! bcpf_dir := lift (module_path self (bcpf self)) in
       report_hidden_api_flag_file_changes
         env self result "max_target_r_low_priority"
         (Py.path_join hiddenapi_dir "hiddenapi-max-target-r-loprio.txt")
         "hiddenapi/hiddenapi-max-target-r-low-priority.txt"
         (Py.path_join (Py.path_join (top_dir self) bcpf_dir)
                       "hiddenapi/hiddenapi-max-target-r-low-priority.txt")).
Proof. split; reflexivity. Qed.


Example C8_example :
  check_frameworks_base_boot_hidden_api_files
    override_env override_self new_Result
  = report_hidden_api_flag_file_changes
      override_env override_self new_Result "max_target_o_low_priority"
      "/src/frameworks/base/boot/hiddenapi/hiddenapi-max-target-o.txt"
      "hiddenapi/hiddenapi-max-target-o-low-priority.txt"
      "/src/bcpf-dir/hiddenapi/hiddenapi-max-target-o-low-priority.txt".
Proof. vm_compute. reflexivity. Qed.

(** ** The exit status of the builds *)

(** C4, refuted: the build of the flags file ends with exit status 1, and
    the analysis runs to its end and reports the file changes. *)
Lemma C4_failed_flags_build_is_not_fatal :
  returncode (build_file_read_output failing_flags_env Fixture.fresh
                                     _FLAGS_FILE)
  = Some 1%Z
  ∧ snd (analyze failing_flags_env Fixture.fresh) = Return tt
  ∧ rendered_paths (fst (analyze failing_flags_env Fixture.fresh))
    = [ "bcpf-dir/Android.bp";
        "bcpf-dir/hiddenapi/hiddenapi-max-target-o-low-priority.txt";
        "frameworks/base/boot/hiddenapi/hiddenapi-max-target-o.txt" ].
Proof. vm_compute. repeat split; reflexivity. Qed.

(** C4, amended.  A non-zero exit status of the build of module-info.json
    ends the run in [load_module_info] with the "Error building"
    exception, before any file change is reported.  A non-zero exit status
    of a build started by [build_hiddenapi_flags] is only logged: the call
    returns what the scan of the build output gave, as it does for a build
    that succeeds. *)
Theorem C4_exit_status_of_the_builds
    (env env' : Env) (self self' : BcpfAnalyzer) (filename : string)
    (status : Z) :
  status ≠ 0%Z →
  returncode
    (build_file_read_output
       env self (Py.path_join (product_out_dir self) "module-info.json"))
  = Some status →
  returncode (build_file_read_output env' self' filename) = Some status →
  analyze env self
  = ([ Analyzing (bcpf self);
       BeforeYouStart (bcpf self) (apex self) (sdk self);
       MakingSure (Py.path_join (product_out_dir self) "module-info.json") ],
     Raise
       (ErrorBuilding
          (Py.path_join (product_out_dir self) "module-info.json")))
  ∧ build_hiddenapi_flags env' self' filename
    = for_line_in self' (lines (build_file_read_output env' self' filename))
                  None.
Proof.
  intros Hstatus Hinfo Hflags.
  apply Z.eqb_neq in Hstatus. split.
  - unfold analyze, load_module_info, wait. msimpl.
    rewrite Hinfo. msimpl. rewrite Hstatus. cbn [negb]. msimpl.
    reflexivity.
  - unfold build_hiddenapi_flags, wait. rewrite Hflags.
    destruct (for_line_in _ _ _) as [reports [diffs | e]]; msimpl;
      [| reflexivity].
    rewrite Hstatus. cbn [negb fst snd]. rewrite app_nil_r. reflexivity.
Qed.

Lemma C4_exit_status_of_the_builds_witness :
  analyze failing_module_info_env Fixture.fresh
  = ([ Analyzing "bcpf"; BeforeYouStart "bcpf" "apex" "sdk";
       MakingSure (Py.path_join "out/product" "module-info.json") ],
     Raise (ErrorBuilding (Py.path_join "out/product" "module-info.json")))
  ∧ build_hiddenapi_flags failing_flags_env Fixture.loaded _FLAGS_FILE
    = for_line_in Fixture.loaded
        (lines (build_file_read_output failing_flags_env Fixture.loaded
                                       _FLAGS_FILE))
        None.
Proof.
  apply (C4_exit_status_of_the_builds
           failing_module_info_env failing_flags_env
           Fixture.fresh Fixture.loaded _FLAGS_FILE 1%Z).
  - lia.
  - reflexivity.
  - reflexivity.
Defined.


(** * Further properties of the script *)

(** ** Strings *)

Lemma append_nil_r s : s +:+ "" = s.
Proof.
  induction s as [| a s IH]; [reflexivity |].
  rewrite append_cons, IH. reflexivity.
Qed.

Lemma contains_char_cons c a s :
  Py.contains (String c "") (String a s)
  = Ascii.eqb c a || Py.contains (String c "") s.
Proof. cbn. rewrite andb_true_r. reflexivity. Qed.

Lemma startswith_append p r : Py.startswith (p +:+ r) p = true.
Proof.
  induction p as [| a p IH]; [reflexivity |].
  rewrite append_cons. cbn. rewrite Ascii.eqb_refl. exact IH.
Qed.

Lemma split_go_skip sep t :
  ∀ cur u, Py.split_go sep (String.length t) cur (t +:+ u)
           = Py.split_go sep 0 cur u.
Proof.
  induction t as [| a t IH]; intros cur u; [destruct u; reflexivity |].
  rewrite append_cons. cbn. apply IH.
Qed.

(** The field in front of the first separator, when the field does not
    hold the first character of the separator. *)
Lemma split_go_first_field c sep field :
  Py.contains (String c "") field = false →
  ∀ cur rest,
    Py.split_go (String c sep) 0 cur (field +:+ String c sep +:+ rest)
    = (String.rev cur +:+ field) :: Py.split_go (String c sep) 0 "" rest.
Proof.
  induction field as [| a field IH]; intros Hfree cur rest.
  - change ("" +:+ String c sep +:+ rest) with (String c (sep +:+ rest)).
    cbn [Py.split_go].
    change (String c (sep +:+ rest)) with (String c sep +:+ rest) at 1.
    rewrite startswith_append.
    cbn [String.length Nat.sub]. rewrite Nat.sub_0_r, split_go_skip.
    rewrite append_nil_r. reflexivity.
  - rewrite contains_char_cons in Hfree.
    apply orb_false_elim in Hfree as [Hca Hfree].
    rewrite append_cons. cbn [Py.split_go Py.startswith].
    rewrite Hca. cbn [andb].
    rewrite IH by assumption.
    rewrite rev_cons, append_assoc. reflexivity.
Qed.

Lemma split_go_no_separator c sep s :
  Py.contains (String c "") s = false →
  ∀ cur, Py.split_go (String c sep) 0 cur s = [String.rev cur +:+ s].
Proof.
  induction s as [| a s IH]; intros Hfree cur.
  - cbn. rewrite append_nil_r. reflexivity.
  - rewrite contains_char_cons in Hfree.
    apply orb_false_elim in Hfree as [Hca Hfree].
    cbn [Py.split_go Py.startswith]. rewrite Hca. cbn [andb].
    rewrite IH by assumption.
    rewrite rev_cons, append_assoc. reflexivity.
Qed.

(** X4.  The signature of a line is the text in front of its first comma,
    and the class of a signature is the text in front of its first ";->":
    a first field without a comma is returned whatever follows it, a class
    name without a semicolon is returned whatever member follows it, and a
    text without the separator is returned whole. *)
Theorem X4_signature_and_class_are_first_fields
    (signature flags class_name member : string) :
  Py.contains "," signature = false →
  Py.contains ";" class_name = false →
  line_to_signature (signature +:+ "," +:+ flags) = signature
  ∧ line_to_signature signature = signature
  ∧ signature_to_class (class_name +:+ ";->" +:+ member) = class_name
  ∧ signature_to_class class_name = class_name.
Proof.
  intros Hsig Hclass. unfold line_to_signature, signature_to_class, Py.split.
  repeat split.
  - rewrite (split_go_first_field "," "" signature Hsig). reflexivity.
  - rewrite (split_go_no_separator "," "" signature Hsig). reflexivity.
  - rewrite (split_go_first_field ";" "->" class_name Hclass). reflexivity.
  - rewrite (split_go_no_separator ";" "->" class_name Hclass). reflexivity.
Qed.

Lemma X4_signature_and_class_are_first_fields_witness :
  line_to_signature ("Lacme/test/Class;-><init>()V" +:+ "," +:+ "blocked,test-api")
  = "Lacme/test/Class;-><init>()V"
  ∧ line_to_signature "Lacme/test/Class;-><init>()V"
    = "Lacme/test/Class;-><init>()V"
  ∧ signature_to_class ("Lacme/test/Class" +:+ ";->" +:+ "<init>()V")
    = "Lacme/test/Class"
  ∧ signature_to_class "Lacme/test/Class" = "Lacme/test/Class".
Proof.
  apply X4_signature_and_class_are_first_fields; reflexivity.
Defined.

Lemma cut_last_none c s :
  Py.contains (String c "") s = false → Py.cut_last c s = None.
Proof.
  induction s as [| a s IH]; intros Hfree; [reflexivity |].
  rewrite contains_char_cons in Hfree.
  apply orb_false_elim in Hfree as [Hca Hfree].
  cbn. rewrite IH by assumption.
  rewrite Ascii.eqb_sym, Hca. reflexivity.
Qed.

Lemma cut_last_append c before behind :
  Py.contains (String c "") behind = false →
  Py.cut_last c (before +:+ String c behind) = Some (before, behind).
Proof.
  intros Hfree. induction before as [| a before IH].
  - change ("" +:+ String c behind) with (String c behind).
    cbn. rewrite cut_last_none by assumption.
    rewrite Ascii.eqb_refl. reflexivity.
  - rewrite append_cons. cbn. rewrite IH. reflexivity.
Qed.

(** X15.  The parent package of a name is the text in front of its last
    slash; a name without a slash is its own parent. *)
Theorem X15_to_parent_package (package name : string) :
  Py.contains "/" name = false →
  to_parent_package (package +:+ "/" +:+ name) = package
  ∧ to_parent_package name = name.
Proof.
  intros Hfree. unfold to_parent_package, Py.rsplit1. split.
  - change ("/" +:+ name) with (String "/" name).
    rewrite cut_last_append by assumption. reflexivity.
  - rewrite cut_last_none by assumption. reflexivity.
Qed.

Lemma X15_to_parent_package_witness :
  to_parent_package ("android/compat" +:+ "/" +:+ "Compatibility")
  = "android/compat"
  ∧ to_parent_package "Compatibility" = "Compatibility".
Proof. apply X15_to_parent_package. reflexivity. Defined.

(** ** The report text *)




Example X16_example :
  reformat_report_test
    ("Run this tool" +:+ nl +:+ "before you" +:+ nl +:+ nl
     +:+ "1. start" +:+ nl +:+ "   again")
  = "Run this tool before you" +:+ nl +:+ nl
    +:+ "1. start" +:+ nl +:+ "   again".
Proof. reflexivity. Qed.

(** ** Reading lines *)

Lemma rev_append s t : String.rev (s +:+ t) = String.rev t +:+ String.rev s.
Proof.
  induction s as [| a s IH].
  - change ("" +:+ t) with t. rewrite append_nil_r. reflexivity.
  - rewrite append_cons, !rev_cons, IH, append_assoc. reflexivity.
Qed.

Lemma lstrip_space_head y a z :
  Py.lstrip_space y = String a z → Py.isspace a = false.
Proof.
  induction y as [| b y IH]; cbn; [discriminate |].
  destruct (Py.isspace b) eqn:Hb; [exact IH |].
  intros [= <- <-]. exact Hb.
Qed.

Lemma rev_involutive s : String.rev (String.rev s) = s.
Proof.
  induction s as [| a s IH]; [reflexivity |].
  rewrite rev_cons, rev_append, IH. reflexivity.
Qed.

Lemma rstrip_space_last line s a :
  Py.rstrip_space line = s +:+ String a "" → Py.isspace a = false.
Proof.
  unfold Py.rstrip_space. intros H.
  apply (f_equal String.rev) in H.
  rewrite rev_involutive, rev_append in H.
  apply (lstrip_space_head _ _ _ H).
Qed.

Lemma iter_until_empty_stops before behind :
  Forall (fun line => line ≠ "") before →
  iter_until_empty (before ++ "" :: behind) = before.
Proof.
  induction 1 as [| line before Hne _ IH]; [reflexivity |].
  cbn. apply String.eqb_neq in Hne. unfold Py.truthy. rewrite Hne. cbn.
  f_equal. exact IH.
Qed.

Lemma iter_until_empty_length raw : length (iter_until_empty raw) ≤ length raw.
Proof.
  induction raw as [| line raw IH]; cbn; [lia |].
  destruct (Py.truthy line); cbn; lia.
Qed.

(** X3.  The lines a file or a build yields carry no trailing white space;
    reading ends at the first empty result of [readline], whatever comes
    behind it; and no more lines are yielded than were read. *)
Theorem X3_newline_stripping_iter (raw : list string) :
  (∀ line s a,
     line ∈ newline_stripping_iter raw →
     line = s +:+ String a "" → Py.isspace a = false)
  ∧ (∀ before behind,
       raw = before ++ "" :: behind →
       Forall (fun line => line ≠ "") before →
       newline_stripping_iter raw = map Py.rstrip_space before)
  ∧ length (newline_stripping_iter raw) ≤ length raw.
Proof.
  unfold newline_stripping_iter. repeat split.
  - intros line s a Hin Heq.
    apply list_elem_of_In, in_map_iff in Hin as (l & Hl & _).
    rewrite <- Hl in Heq. eapply rstrip_space_last, Heq.
  - intros before behind -> Hne.
    rewrite iter_until_empty_stops by assumption. reflexivity.
  - rewrite length_map. apply iter_until_empty_length.
Qed.

Example X3_example :
  newline_stripping_iter
    ["LA;->f()V,blocked  " +:+ nl; nl; " LB;->g()V" +:+ nl; ""; "LC;->h()V"]
  = ["LA;->f()V,blocked"; ""; " LB;->g()V"].
Proof. reflexivity. Qed.

(** ** Module paths and output files *)

Lemma unique_paths_size (paths : list string) :
  size (list_to_set paths : gset string) = 1
  ↔ paths ≠ [] ∧ Forall (fun q => q = hd "" paths) paths.
Proof.
  split.
  - intros Hsize. apply size_1_elem_of in Hsize as [x Hx].
    destruct paths as [| p paths].
    + exfalso. cbn in Hx. set_solver.
    + split; [discriminate |]. cbn [hd].
      assert (p = x) as -> by set_solver.
      apply Forall_forall. intros q Hq.
      assert (q ∈ (list_to_set (x :: paths) : gset string)) as Hin
        by (apply elem_of_list_to_set; exact Hq).
      set_solver.
  - intros [Hne Hall]. destruct paths as [| p paths]; [congruence |].
    cbn [hd] in Hall.
    assert ((list_to_set (p :: paths) : gset string) = {[p]}) as ->.
    { apply set_eq. intros q. rewrite elem_of_list_to_set, elem_of_singleton.
      split.
      - intros Hq. rewrite Forall_forall in Hall. apply Hall, Hq.
      - intros ->. left. }
    apply size_singleton.
Qed.

(** X1.  The path of a module is returned exactly when module-info.json
    lists the module with a path list that is not empty and whose entries
    are all that path; a module that is not listed raises "could not be
    found", and a path list that is empty or holds two different paths
    raises "single unique path". *)
Theorem X1_module_path_cases
    (mi : ModuleInfo) (module_name : string) :
  (∀ p,
     ModuleInfo_module_path mi module_name = Return p
     ↔ ∃ paths,
         modules mi !! module_name = Some paths
         ∧ paths ≠ [] ∧ Forall (fun q => q = p) paths)
  ∧ (modules mi !! module_name = None
     ↔ ModuleInfo_module_path mi module_name
       = Raise (ModuleNotFound module_name))
  ∧ (∀ paths,
       modules mi !! module_name = Some paths →
       (paths = [] ∨ ∃ q, q ∈ paths ∧ q ≠ hd "" paths) →
       ModuleInfo_module_path mi module_name
       = Raise (NoUniquePath module_name paths)).
Proof.
  unfold ModuleInfo_module_path, _module.
  destruct (modules mi !! module_name) as [paths |] eqn:Hlookup.
  - destruct (decide (size (list_to_set paths : gset string) = 1))
      as [Hsize | Hsize].
    + apply unique_paths_size in Hsize as Huniq. destruct Huniq as [Hne Hall].
      repeat split.
      * intros [= <-]. exists paths. auto.
      * intros (paths' & [= <-] & _ & Hall').
        destruct paths as [| q paths]; [congruence |].
        inversion Hall'; subst. reflexivity.
      * discriminate.
      * discriminate.
      * intros paths' [= <-] [-> | (q & Hq & Hneq)]; [congruence |].
        rewrite Forall_forall in Hall. specialize (Hall q Hq). congruence.
    + repeat split; try discriminate.
      * intros (paths' & [= <-] & Hne & Hall). exfalso. apply Hsize.
        apply unique_paths_size. split; [exact Hne |].
        destruct paths as [| q paths]; [congruence |].
        inversion Hall; subst. exact Hall.
      * intros paths' [= <-] _. reflexivity.
  - repeat split; try discriminate; try reflexivity.
    intros (paths & Hsome & _). discriminate.
Qed.

Example X1_example :
  let mi :=
    {| modules :=
         {[ "bcpf" := ["a/b"; "a/b"]; "two" := ["a/b"; "a/c"];
            "none" := [] ]} |} in
  ModuleInfo_module_path mi "bcpf" = Return "a/b"
  ∧ ModuleInfo_module_path mi "two" = Raise (NoUniquePath "two" ["a/b"; "a/c"])
  ∧ ModuleInfo_module_path mi "none" = Raise (NoUniquePath "none" [])
  ∧ ModuleInfo_module_path mi "other" = Raise (ModuleNotFound "other").
Proof. vm_compute. repeat split; reflexivity. Qed.

Lemma truthy_append a b : Py.truthy b = true → Py.truthy (a +:+ b) = true.
Proof.
  destruct a as [| c a]; [intros H; exact H |].
  intros _. reflexivity.
Qed.

Lemma path_join_truthy a b : Py.truthy b = true → Py.truthy (Py.path_join a b) = true.
Proof.
  intros Hb. unfold Py.path_join.
  destruct (Py.startswith b "/"); [exact Hb |].
  destruct (negb (Py.truthy a) || Py.endswith a "/");
    repeat apply truthy_append; exact Hb.
Qed.

(** The search of [find_bootclasspath_fragment_output_file] over the
    directories [os.walk] visits. *)
Definition found_in (basename : string)
    (walk : list (string * list string)) (found_file : string) : string :=
  fold_left
    (fun found_file '(dirpath, filenames) =>
       if existsb (String.eqb basename) filenames
       then Py.path_join dirpath basename
       else found_file)
    walk found_file.

Lemma existsb_eqb basename (filenames : list string) :
  existsb (String.eqb basename) filenames = true ↔ basename ∈ filenames.
Proof.
  rewrite existsb_exists. split.
  - intros (f & Hin & Heq). apply String.eqb_eq in Heq as ->.
    apply list_elem_of_In, Hin.
  - intros Hin. exists basename. split; [apply list_elem_of_In, Hin |].
    apply String.eqb_refl.
Qed.

Lemma found_in_absent basename walk :
  Forall (fun '(_, filenames) => basename ∉ filenames) walk →
  ∀ found_file, found_in basename walk found_file = found_file.
Proof.
  induction 1 as [| [dirpath filenames] walk Habsent _ IH]; intros found_file;
    [reflexivity |].
  cbn. destruct (existsb _ _) eqn:Hex; [| apply IH].
  apply existsb_eqb in Hex. contradiction.
Qed.

Lemma found_in_last basename before dirpath filenames after found_file :
  basename ∈ filenames →
  Forall (fun '(_, filenames) => basename ∉ filenames) after →
  found_in basename (before ++ (dirpath, filenames) :: after) found_file
  = Py.path_join dirpath basename.
Proof.
  intros Hin Habsent. unfold found_in.
  rewrite fold_left_app. cbn [fold_left].
  apply existsb_eqb in Hin. rewrite Hin.
  apply (found_in_absent basename after Habsent).
Qed.

(** X2.  Of the directories under the output directory of the fragment
    that hold a file of the wanted name, the one visited last gives the
    file; when no directory holds such a file the search raises "Could not
    find". *)
Theorem X2_output_file_of_the_last_directory
    (env : Env) (self : BcpfAnalyzer) (basename bcpf_out_dir : string) :
  module_out_dir self (bcpf self) = Return bcpf_out_dir →
  basename ≠ "" →
  (∀ before dirpath filenames after,
     os_walk env bcpf_out_dir = before ++ (dirpath, filenames) :: after →
     basename ∈ filenames →
     Forall (fun '(_, filenames) => basename ∉ filenames) after →
     find_bootclasspath_fragment_output_file env self basename
     = Return (Py.path_join dirpath basename))
  ∧ (Forall (fun '(_, filenames) => basename ∉ filenames)
            (os_walk env bcpf_out_dir) →
     find_bootclasspath_fragment_output_file env self basename
     = Raise (CouldNotFind basename bcpf_out_dir)).
Proof.
  intros Hdir Hname. unfold find_bootclasspath_fragment_output_file.
  rewrite Hdir. fold (found_in basename (os_walk env bcpf_out_dir) "").
  split.
  - intros before dirpath filenames after -> Hin Habsent.
    rewrite found_in_last by assumption.
    rewrite path_join_truthy; [reflexivity |].
    unfold Py.truthy. apply String.eqb_neq in Hname. rewrite Hname.
    reflexivity.
  - intros Habsent. rewrite found_in_absent by assumption. reflexivity.
Qed.

(** A checkout in which [os.walk] visits [walk], whatever the directory. *)
Definition walk_env (walk : list (string * list string)) : Env :=
  let base :=
    Fixture.env (fun _ => {| lines := []; returncode := Some 0%Z |}) [] [] in
  {| soong_ui := soong_ui base; json_load := json_load base;
     os_walk _ := walk; os_listdir := os_listdir base;
     readlines := readlines base; relpath := relpath base;
     textwrap_wrap := textwrap_wrap base;
     textwrap_indent := textwrap_indent base; set_order := set_order base |}.

Definition two_copies : list (string * list string) :=
  [ ("/out/bcpf", ["all-flags.csv"; "index.csv"]);
    ("/out/bcpf/a", ["stub-flags.csv"]);
    ("/out/bcpf/b", ["all-flags.csv"]);
    ("/out/bcpf/b/c", []) ].

Lemma X2_output_file_of_the_last_directory_witness :
  (∀ before dirpath filenames after,
     os_walk (walk_env two_copies)
             "/src/out/soong/.intermediates/bcpf-dir/bcpf"
     = before ++ (dirpath, filenames) :: after →
     "all-flags.csv" ∈ filenames →
     Forall (fun '(_, filenames) => "all-flags.csv" ∉ filenames) after →
     find_bootclasspath_fragment_output_file
       (walk_env two_copies) Fixture.loaded "all-flags.csv"
     = Return (Py.path_join dirpath "all-flags.csv"))
  ∧ (Forall (fun '(_, filenames) => "all-flags.csv" ∉ filenames)
            (os_walk (walk_env two_copies)
                     "/src/out/soong/.intermediates/bcpf-dir/bcpf") →
     find_bootclasspath_fragment_output_file
       (walk_env two_copies) Fixture.loaded "all-flags.csv"
     = Raise (CouldNotFind "all-flags.csv"
                "/src/out/soong/.intermediates/bcpf-dir/bcpf")).
Proof.
  apply (X2_output_file_of_the_last_directory
           (walk_env two_copies) Fixture.loaded "all-flags.csv"
           "/src/out/soong/.intermediates/bcpf-dir/bcpf").
  - reflexivity.
  - discriminate.
Defined.

Example X2_example :
  find_bootclasspath_fragment_output_file
    (walk_env two_copies) Fixture.loaded "all-flags.csv"
  = Return "/out/bcpf/b/all-flags.csv"
  ∧ find_bootclasspath_fragment_output_file
      (walk_env two_copies) Fixture.loaded "flags.csv"
    = Raise (CouldNotFind "flags.csv"
               "/src/out/soong/.intermediates/bcpf-dir/bcpf").
Proof. vm_compute. split; reflexivity. Qed.

(** ** The catalog *)




(** ** Build output without a report, and the shape of a scan *)

Lemma for_line_in_no_marker self lines :
  Forall (fun line => line ≠ _INCONSISTENT_FLAGS) lines →
  ∀ diffs, for_line_in self lines diffs = ([], Return diffs).
Proof.
  induction 1 as [| line lines Hne _ IH]; intros diffs; [reflexivity |].
  cbn [for_line_in]. rewrite while_inconsistent_pass by assumption.
  apply IH.
Qed.

(** X6.  When no line of the build output is the marker of an inconsistent
    flags report, [build_hiddenapi_flags] scans nothing: it reports
    nothing and returns [None], whatever the exit status of the build. *)
Theorem X6_build_output_without_a_report
    (env : Env) (self : BcpfAnalyzer) (filename : string) (status : Z) :
  Forall (fun line => line ≠ _INCONSISTENT_FLAGS)
         (lines (build_file_read_output env self filename)) →
  returncode (build_file_read_output env self filename) = Some status →
  build_hiddenapi_flags env self filename = ([], Return None).
Proof.
  intros Hlines Hstatus. unfold build_hiddenapi_flags, wait.
  rewrite for_line_in_no_marker by assumption. rewrite Hstatus. msimpl.
  destruct (negb (status =? 0)%Z); reflexivity.
Qed.

Lemma X6_build_output_without_a_report_witness :
  build_hiddenapi_flags
    (Fixture.env
       (Fixture.flags_build
          ["[ 99% 1/2] hiddenapi"; ""; "ninja failed with: exit status 1"] 1)
       [] [])
    Fixture.fresh _FLAGS_FILE
  = ([], Return None).
Proof.
  apply (X6_build_output_without_a_report _ _ _ 1%Z).
  - repeat constructor; discriminate.
  - reflexivity.
Defined.

Lemma scan_triples_returns significant lines :
  ∀ diffs out separator diffs' rest,
    scan_triples significant lines diffs
    = (out, Return (separator, diffs', rest)) →
    out = []
    ∧ ((separator = "" ∧ rest = [])
       ∨ (separator ≠ ""
          ∧ ∃ consumed,
              lines = consumed ++ separator :: rest
              ∧ length consumed `mod` 3 = 2)).
Proof.
  induction lines as [| | | m p s lines IH] using list_ind3;
    intros diffs out separator diffs' rest;
    try (cbn; intros [= <- <- <- <-]; split; [reflexivity | left; auto]).
  rewrite scan_triples_unfold.
  destruct (check_inconsistent_flag_lines_cases significant m p "")
    as [-> | ->]; [| rewrite bind_raise; discriminate].
  rewrite bind_ret. cbv zeta.
  match goal with
  | |- context [negb (String.eqb ?a ?b)] => destruct (negb (String.eqb a b))
  end; [msimpl; discriminate |].
  destruct (Py.truthy s) eqn:Hs.
  - intros [= <- <- <- <-]. split; [reflexivity |]. right.
    split.
    + intros ->. discriminate Hs.
    + exists [m; p]. split; reflexivity.
  - apply negb_false_iff, String.eqb_eq in Hs as ->.
    intros Hscan. apply IH in Hscan as [-> Hshape].
    split; [reflexivity |].
    destruct Hshape as [Hend | (Hne & consumed & -> & Hmod)];
      [left; exact Hend | right].
    split; [exact Hne |].
    exists (m :: p :: "" :: consumed). split; [reflexivity |].
    cbn [length].
    replace (S (S (S (length consumed)))) with (length consumed + 1 * 3)
      by lia.
    rewrite Nat.Div0.mod_add. exact Hmod.
Qed.

(** X7.  A scan that returns has either read the lines to their end, and
    then returns an empty line and leaves no line, or has stopped at a
    separator line that is not blank: it returns that line and leaves the
    lines behind it, having consumed the header triple and every later
    triple in full.  It reports at most that it filters the section out. *)
Theorem X7_shape_of_a_scan
    (self : BcpfAnalyzer) (lines : list string) (reports : list Report)
    (separator : string) (diffs : DiffMap) (rest : list string) :
  scan_inconsistent_flags_report self lines
  = (reports, Return (separator, diffs, rest)) →
  (reports = [] ∨ ∃ module_line, reports = [FilteringOut module_line])
  ∧ ((separator = "" ∧ rest = [])
     ∨ (separator ≠ ""
        ∧ ∃ consumed,
            lines = consumed ++ separator :: rest
            ∧ length consumed `mod` 3 = 2 ∧ 5 ≤ length consumed)).
Proof.
  destruct lines as [| hm [| hp [| hs lines]]]; try discriminate.
  unfold scan_inconsistent_flags_report.
  destruct (module_path self (bcpf self)) as [bcpf_dir | e];
    [| msimpl; discriminate].
  msimpl.
  assert (∀ significant header_log,
            (header_log = [] ∨ ∃ module_line,
                                 header_log = [FilteringOut module_line]) →
            bind (header_log, Return significant)
                 (fun significant =>
                    bind (check_inconsistent_flag_lines significant hm hp hs)
                         (fun _ => scan_triples significant lines ∅))
            = (reports, Return (separator, diffs, rest)) →
            (reports = [] ∨ ∃ module_line, reports = [FilteringOut module_line])
            ∧ ((separator = "" ∧ rest = [])
               ∨ (separator ≠ ""
                  ∧ ∃ consumed,
                      hm :: hp :: hs :: lines = consumed ++ separator :: rest
                      ∧ length consumed `mod` 3 = 2 ∧ 5 ≤ length consumed)))
    as Hgen.
  { intros significant header_log Hlog. rewrite bind_return.
    destruct (check_inconsistent_flag_lines_cases significant hm hp hs)
      as [-> | ->]; [| rewrite bind_raise; discriminate].
    rewrite bind_ret.
    destruct (scan_triples significant lines ∅) as [out r] eqn:Hscan.
    cbn [fst snd]. intros [= <- ->].
    apply scan_triples_returns in Hscan as [-> Hshape].
    rewrite app_nil_r. split; [exact Hlog |].
    destruct Hshape as [Hend | (Hne & consumed & -> & Hmod)];
      [left; exact Hend | right].
    split; [exact Hne |].
    exists (hm :: hp :: hs :: consumed). split; [reflexivity |].
    cbn [length]. split; [| destruct consumed as [| ? [| ? ?]]; cbn in *; lia].
    replace (S (S (S (length consumed)))) with (length consumed + 1 * 3)
      by lia.
    rewrite Nat.Div0.mod_add. exact Hmod. }
  destruct (Py.contains _ _); intros Hscan.
  - apply (Hgen true []); [left; reflexivity | exact Hscan].
  - apply (Hgen false [FilteringOut hm]); [right; eauto | exact Hscan].
Qed.

Lemma X7_shape_of_a_scan_witness :
  let lines :=
    [ Fixture.header_module; Fixture.header_monolithic; "";
      "< LA;->f()V,blocked"; "> LA;->f()V,max-target-o";
      "ninja failed with: exit status 1"; "build stopped" ] in
  (([] : list Report) = []
   ∨ ∃ module_line, ([] : list Report) = [FilteringOut module_line])
  ∧ (("ninja failed with: exit status 1" = "" ∧ ["build stopped"] = [])
     ∨ ("ninja failed with: exit status 1" ≠ ""
        ∧ ∃ consumed,
            lines
            = consumed ++ "ninja failed with: exit status 1"
                :: ["build stopped"]
            ∧ length consumed `mod` 3 = 2 ∧ 5 ≤ length consumed)).
Proof.
  intros lines.
  apply (X7_shape_of_a_scan
           Fixture.loaded lines []
           "ninja failed with: exit status 1"
           {[ "LA;->f()V" := (["blocked"], ["max-target-o"]) ]}
           ["build stopped"]).
  vm_compute. reflexivity.
Defined.

Lemma record_entries_app before after diffs :
  record_entries (before ++ after) diffs
  = record_entries after (record_entries before diffs).
Proof. unfold record_entries. apply fold_left_app. Qed.

Lemma record_entries_lookup_last before t after diffs :
  entry_signature t ∉ map entry_signature after →
  record_entries (before ++ t :: after) diffs !! entry_signature t
  = Some (entry_flags t).
Proof.
  intros Hlast. rewrite record_entries_app.
  change (record_entries (t :: after) ?d)
    with (record_entries after (<[entry_signature t := entry_flags t]> d)).
  rewrite record_entries_lookup_ne by assumption.
  apply lookup_insert_eq.
Qed.

(** X8.  When a signature comes up in several triples of a section, the
    diffs hold the flags of its last triple: an entry is written over by a
    later triple of the same signature and by nothing else.  The
    signatures of the diffs are those of the triples. *)
Theorem X8_last_triple_of_a_signature_wins
    (self : BcpfAnalyzer) (bcpf_dir hm hp : string)
    (before after : list (string * string)) (t : string * string)
    (separator : string) (rest : list string) :
  module_path self (bcpf self) = Return bcpf_dir →
  header_ok hm hp = true →
  Forall (fun '(m, p) => well_formed m p = true) (before ++ t :: after) →
  entry_signature t ∉ map entry_signature after →
  separator ≠ "" ∨ length rest < 3 →
  ∃ diffs leftover,
    scan_inconsistent_flags_report
      self
      (hm :: hp :: "" :: section_lines (before ++ t :: after) separator
          ++ rest)
    = (header_reports bcpf_dir (bcpf self) hm,
       Return (separator, diffs, leftover))
    ∧ diffs !! entry_signature t = Some (entry_flags t)
    ∧ dom diffs
      = list_to_set (map entry_signature (before ++ t :: after)).
Proof.
  intros Hpath Hok Hwf Hlast Hend.
  exists (record_entries (before ++ t :: after) ∅),
         (if Py.truthy separator then rest else []).
  split; [| split].
  - rewrite (scan_header _ bcpf_dir) by assumption.
    rewrite scan_triples_section; [msimpl; rewrite app_nil_r; reflexivity
                                  | assumption |].
    destruct (decide (separator = "")) as [-> | Hne].
    + right. destruct Hend as [Hne | Hshort]; [congruence | auto].
    + left. split; [| exact Hne]. destruct before; discriminate.
  - apply record_entries_lookup_last, Hlast.
  - rewrite record_entries_dom, dom_empty_L. set_solver.
Qed.

Lemma X8_last_triple_of_a_signature_wins_witness :
  ∃ diffs leftover,
    scan_inconsistent_flags_report
      Fixture.loaded
      (Fixture.header_module :: Fixture.header_monolithic :: ""
         :: section_lines
              ([("< LA;->f()V,blocked", "> LA;->f()V,max-target-o")]
               ++ ("< LA;->f()V,unsupported", "> LA;->f()V,lo-prio")
               :: [("< LB;->g()V,blocked", "> LB;->g()V,sdk")])
              "ninja failed"
         ++ [])
    = (header_reports "bcpf-dir" (bcpf Fixture.loaded) Fixture.header_module,
       Return ("ninja failed", diffs, leftover))
    ∧ diffs !! entry_signature
                 ("< LA;->f()V,unsupported", "> LA;->f()V,lo-prio")
      = Some (entry_flags ("< LA;->f()V,unsupported", "> LA;->f()V,lo-prio"))
    ∧ dom diffs
      = list_to_set
          (map entry_signature
               ([("< LA;->f()V,blocked", "> LA;->f()V,max-target-o")]
                ++ ("< LA;->f()V,unsupported", "> LA;->f()V,lo-prio")
                :: [("< LB;->g()V,blocked", "> LB;->g()V,sdk")])).
Proof.
  apply (X8_last_triple_of_a_signature_wins
           Fixture.loaded "bcpf-dir" Fixture.header_module
           Fixture.header_monolithic).
  - reflexivity.
  - reflexivity.
  - repeat constructor.
  - vm_compute. set_solver.
  - left. discriminate.
Defined.

(** X9.  A header whose third line is not blank ends the run with
    [sys.exit(1)], also when its two lines carry their prefixes: the
    scanner reports the three lines as invalid build output, after the
    report that it filters the section out when the header names another
    module. *)
Theorem X9_header_needs_a_blank_third_line
    (self : BcpfAnalyzer) (bcpf_dir hm hp hs : string) (rest : list string) :
  module_path self (bcpf self) = Return bcpf_dir →
  hs ≠ "" →
  scan_inconsistent_flags_report self (hm :: hp :: hs :: rest)
  = (header_reports bcpf_dir (bcpf self) hm ++ [InvalidBuildOutput hm hp hs],
     Raise (SystemExit 1)).
Proof.
  intros Hpath Hhs. unfold scan_inconsistent_flags_report, header_reports.
  rewrite Hpath. msimpl.
  assert (∀ significant,
            check_inconsistent_flag_lines significant hm hp hs
            = ([InvalidBuildOutput hm hp hs], Raise (SystemExit 1))) as Hcheck.
  { intros significant. unfold check_inconsistent_flag_lines, Py.truthy.
    apply String.eqb_neq in Hhs. rewrite Hhs. cbn [negb].
    rewrite !andb_false_r. reflexivity. }
  destruct (Py.contains _ _); msimpl; rewrite Hcheck; reflexivity.
Qed.

Lemma X9_header_needs_a_blank_third_line_witness :
  scan_inconsistent_flags_report
    Fixture.loaded
    [ Fixture.header_module; Fixture.header_monolithic;
      "< LA;->f()V,blocked"; "> LA;->f()V,max-target-o"; "" ]
  = (header_reports "bcpf-dir" (bcpf Fixture.loaded) Fixture.header_module
     ++ [InvalidBuildOutput Fixture.header_module Fixture.header_monolithic
                            "< LA;->f()V,blocked"],
     Raise (SystemExit 1)).
Proof.
  apply X9_header_needs_a_blank_third_line; [reflexivity | discriminate].
Defined.

(** ** The override directory *)

Lemma sort_insert_strings_sorted x l :
  StronglySorted String.le l →
  StronglySorted String.le (sort_insert Py.lt x l).
Proof.
  induction 1 as [| y l Hs IH Hall]; cbn.
  - repeat constructor.
  - destruct (Py.lt y x) eqn:Hlt.
    + constructor; [exact IH |].
      rewrite (sort_insert_perm Py.lt x l).
      constructor; [| exact Hall].
      apply lt_true_le, Hlt.
    + assert (String.le x y) as Hxy by apply lt_false_le, Hlt.
      constructor; [constructor; assumption |].
      constructor; [exact Hxy |].
      eapply Forall_impl; [exact Hall |].
      intros z Hyz. etrans; eassumption.
Qed.

Lemma list_sort_strings_sorted l :
  StronglySorted String.le (list_sort Py.lt l).
Proof.
  induction l as [| x l IH]; cbn; [constructor |].
  apply sort_insert_strings_sorted, IH.
Qed.

(** [sorted] gives the same list for every order of the same names. *)
Lemma list_sort_strings_permutation l l' :
  Permutation l l' → list_sort Py.lt l = list_sort Py.lt l'.
Proof.
  intros Hperm. apply (StronglySorted_unique String.le).
  - apply list_sort_strings_sorted.
  - apply list_sort_strings_sorted.
  - rewrite !list_sort_perm. exact Hperm.
Qed.

(** A file name of the override directory that the script reads. *)
Definition override_name (basename : string) : bool :=
  Py.startswith basename "hiddenapi-" && Py.endswith basename ".txt".

(** Two checkouts that cannot be told apart through the override files of
    [hiddenapi_dir]: the files with an override name read the same, and
    the runtime behaves the same. *)
Definition same_overrides (env env' : Env) (hiddenapi_dir : string) : Prop :=
  relpath env = relpath env'
  ∧ textwrap_indent env = textwrap_indent env'
  ∧ set_order env = set_order env'
  ∧ ∀ basename,
      override_name basename = true →
      readlines env (Py.path_join hiddenapi_dir basename)
      = readlines env' (Py.path_join hiddenapi_dir basename).

Lemma check_hidden_api_file_same env env' self hiddenapi_dir result basename :
  same_overrides env env' hiddenapi_dir →
  check_hidden_api_file env self hiddenapi_dir result basename
  = check_hidden_api_file env' self hiddenapi_dir result basename.
Proof.
  intros (Hrel & Hindent & Horder & Hread).
  unfold check_hidden_api_file. fold (override_name basename).
  destruct (override_name basename) eqn:Hname; [| reflexivity].
  cbn [negb]. cbv zeta.
  destruct (module_path self (bcpf self)) as [bcpf_dir | e]; [| reflexivity].
  msimpl.
  unfold report_hidden_api_flag_file_changes, new_file_change.
  rewrite (Hread basename Hname), Hrel, Hindent, Horder. reflexivity.
Qed.

Lemma for_basename_in_same env env' self hiddenapi_dir basenames :
  same_overrides env env' hiddenapi_dir →
  ∀ result,
    for_basename_in env self hiddenapi_dir basenames result
    = for_basename_in env' self hiddenapi_dir basenames result.
Proof.
  intros Hsame.
  induction basenames as [| basename basenames IH]; intros result;
    [reflexivity |].
  cbn [for_basename_in].
  rewrite (check_hidden_api_file_same env env') by assumption.
  destruct (check_hidden_api_file env' self hiddenapi_dir result basename)
    as [out [result' | e]]; [| reflexivity].
  rewrite !bind_return, IH. reflexivity.
Qed.

(** X10.  The changes found in the override directory depend on the names
    the directory lists, not on the order in which [os.listdir] lists
    them, and on the contents of the files named hiddenapi-*.txt alone: no
    other file of the directory is read. *)
Theorem X10_override_directory_order_and_names
    (env env' : Env) (self : BcpfAnalyzer) (result : Result)
    (listing listing' : list string) :
  let hiddenapi_dir :=
    Py.path_join (top_dir self) "frameworks/base/boot/hiddenapi" in
  os_listdir env hiddenapi_dir = Return listing →
  os_listdir env' hiddenapi_dir = Return listing' →
  Permutation listing listing' →
  same_overrides env env' hiddenapi_dir →
  check_frameworks_base_boot_hidden_api_files env self result
  = check_frameworks_base_boot_hidden_api_files env' self result.
Proof.
  intros hiddenapi_dir Hlist Hlist' Hperm Hsame.
  unfold check_frameworks_base_boot_hidden_api_files.
  fold hiddenapi_dir. rewrite Hlist, Hlist'. msimpl.
  rewrite (list_sort_strings_permutation listing listing') by assumption.
  apply for_basename_in_same, Hsame.
Qed.

(** Two checkouts whose override directories hold the same override file;
    they list it in another order and differ in a file of another name. *)
Definition listed_first : Env :=
  Fixture.env (fun _ => {| lines := []; returncode := Some 0%Z |})
              ["LA;->a()V,blocked"]
              [ ("hiddenapi-max-target-o.txt", ["LA;->a()V"; "LC;->c()V"]);
                ("README.md", ["Override files."]) ].

Definition listed_last : Env :=
  Fixture.env (fun _ => {| lines := []; returncode := Some 0%Z |})
              ["LA;->a()V,blocked"]
              [ ("README.md", ["LA;->a()V"]);
                ("hiddenapi-max-target-o.txt", ["LA;->a()V"; "LC;->c()V"]) ].

Lemma startswith_cons s a p :
  Py.startswith s (String a p) = true →
  ∃ s', s = String a s' ∧ Py.startswith s' p = true.
Proof.
  destruct s as [| b s]; [discriminate |].
  cbn [Py.startswith]. intros H. apply andb_prop in H as [Hab Hp].
  apply Ascii.eqb_eq in Hab as ->. eauto.
Qed.

Lemma listed_same_overrides :
  same_overrides listed_first listed_last Fixture.hiddenapi_dir.
Proof.
  repeat split.
  intros basename Hname. unfold override_name in Hname.
  apply andb_prop in Hname as [Hprefix Hsuffix].
  apply startswith_cons in Hprefix as (rest & -> & _).
  vm_compute. reflexivity.
Qed.

Lemma X10_override_directory_order_and_names_witness :
  check_frameworks_base_boot_hidden_api_files
    listed_first override_self new_Result
  = check_frameworks_base_boot_hidden_api_files
      listed_last override_self new_Result.
Proof.
  apply (X10_override_directory_order_and_names
           listed_first listed_last override_self new_Result
           ["hiddenapi-max-target-o.txt"; "README.md"]
           ["README.md"; "hiddenapi-max-target-o.txt"]).
  - reflexivity.
  - reflexivity.
  - apply perm_swap.
  - apply listed_same_overrides.
Defined.

Lemma match_signatures_unpopulated self lines matched :
  _signatures self = ∅ → lines ≠ [] →
  match_signatures self lines matched = Raise (NotInitialized "signatures").
Proof.
  intros Hempty Hlines. destruct lines as [| signature lines]; [congruence |].
  cbn. unfold signatures. rewrite Hempty.
  destruct (decide (∅ = ∅)) as [_ | Hne]; [reflexivity | congruence].
Qed.

(** X11.  Against a catalog that holds no signature, an override file that
    yields a line ends the run with "signatures has not been initialized",
    before any change is made; an override file that yields no line leaves
    the result as it was and raises nothing. *)
Theorem X11_override_file_against_an_empty_catalog
    (env : Env) (self : BcpfAnalyzer) (result : Result)
    (property_name flags_file rel_bcpf_flags_file bcpf_flags_file : string)
    (raw : list string) :
  _signatures self = ∅ →
  readlines env flags_file = Return raw →
  report_hidden_api_flag_file_changes
    env self result property_name flags_file rel_bcpf_flags_file
    bcpf_flags_file
  = if decide (newline_stripping_iter raw = [])
    then ([], Return result)
    else ([], Raise (NotInitialized "signatures")).
Proof.
  intros Hempty Hraw. unfold report_hidden_api_flag_file_changes.
  rewrite Hraw. msimpl.
  destruct (decide (newline_stripping_iter raw = [])) as [-> | Hne].
  - reflexivity.
  - rewrite match_signatures_unpopulated by assumption. reflexivity.
Qed.

Lemma X11_override_file_against_an_empty_catalog_witness :
  report_hidden_api_flag_file_changes
    override_env Fixture.loaded new_Result "max_target_o_low_priority"
    "/src/frameworks/base/boot/hiddenapi/hiddenapi-max-target-o.txt"
    "hiddenapi/hiddenapi-max-target-o-low-priority.txt"
    "/src/bcpf-dir/hiddenapi/hiddenapi-max-target-o-low-priority.txt"
  = if decide (newline_stripping_iter
                 ["LA;->a()V" +:+ nl; "LC;->c()V" +:+ nl; "LD;->d()V" +:+ nl]
               = [])
    then ([], Return new_Result)
    else ([], Raise (NotInitialized "signatures")).
Proof.
  apply X11_override_file_against_an_empty_catalog; reflexivity.
Defined.

(** *** What the scan of the override directory adds *)

Lemma contains_char_append c s t :
  Py.contains (String c "") (s +:+ t)
  = Py.contains (String c "") s || Py.contains (String c "") t.
Proof.
  induction s as [| a s IH].
  - change ("" +:+ t) with t. reflexivity.
  - rewrite append_cons, !contains_char_cons, IH, orb_assoc. reflexivity.
Qed.

Lemma contains_char_rev c s :
  Py.contains (String c "") (String.rev s) = Py.contains (String c "") s.
Proof.
  induction s as [| a s IH]; [reflexivity |].
  rewrite rev_cons, contains_char_append, IH, !contains_char_cons.
  cbn. rewrite orb_false_r. apply orb_comm.
Qed.

Lemma split_go_fields_free c s :
  ∀ cur,
    Py.contains (String c "") cur = false →
    Forall (fun field => Py.contains (String c "") field = false)
           (Py.split_go (String c "") 0 cur s).
Proof.
  induction s as [| a s IH]; intros cur Hcur.
  - cbn. repeat constructor. rewrite contains_char_rev. exact Hcur.
  - cbn [Py.split_go Py.startswith String.length Nat.sub].
    destruct (Ascii.eqb c a) eqn:Hca; cbn [andb].
    + constructor; [rewrite contains_char_rev; exact Hcur |].
      apply IH. reflexivity.
    + apply IH. rewrite contains_char_cons, Hca, Hcur. reflexivity.
Qed.

Lemma join_fields_free c sep fields :
  Py.contains (String c "") sep = false →
  Forall (fun field => Py.contains (String c "") field = false) fields →
  Py.contains (String c "") (Py.join sep fields) = false.
Proof.
  intros Hsep. induction 1 as [| field fields Hfield Hrest IH];
    [reflexivity |].
  destruct fields as [| field' fields]; [exact Hfield |].
  change (Py.join sep (field :: field' :: fields))
    with (field +:+ sep +:+ Py.join sep (field' :: fields)).
  rewrite !contains_char_append, Hfield, Hsep, IH. reflexivity.
Qed.

(** A property name is free of hyphens once they have been replaced. *)
Lemma replace_hyphens name :
  Py.contains "-" (Py.replace name "-" "_") = false.
Proof.
  unfold Py.replace, Py.split.
  apply (join_fields_free "-" "_"); [reflexivity |].
  apply (split_go_fields_free "-"). reflexivity.
Qed.

(** A property change of the kind the scan of the override directory
    makes: no comment, a name without hyphens, and as its one value a file
    hiddenapi/hiddenapi-*.txt of the fragment. *)
Definition override_property (c : HiddenApiPropertyChange) : Prop :=
  property_comment c = ""
  ∧ Py.contains "-" (property_name c) = false
  ∧ ∃ basename,
      values c = ["hiddenapi/" +:+ basename]
      ∧ override_name basename = true.

(** [result'] is [result] with changes appended: two file changes for
    every property change. *)
Definition grown (result result' : Result) : Prop :=
  ∃ files properties,
    file_changes result' = file_changes result ++ files
    ∧ property_changes result' = property_changes result ++ properties
    ∧ length files = 2 * length properties
    ∧ Forall override_property properties
    ∧ diffs result' = diffs result.

Lemma grown_refl result : grown result result.
Proof.
  exists [], []. rewrite !app_nil_r. repeat split. constructor.
Qed.

Lemma grown_trans r1 r2 r3 : grown r1 r2 → grown r2 r3 → grown r1 r3.
Proof.
  intros (f1 & p1 & Hf1 & Hp1 & Hl1 & Ho1 & Hd1)
         (f2 & p2 & Hf2 & Hp2 & Hl2 & Ho2 & Hd2).
  exists (f1 ++ f2), (p1 ++ p2).
  rewrite Hf2, Hf1, Hp2, Hp1, Hd2, Hd1, !app_assoc, !length_app.
  repeat split; [lia | apply Forall_app; auto].
Qed.

Lemma report_hidden_api_flag_file_changes_grows
    env self result property_name flags_file rel bcpf_flags_file out result' :
  report_hidden_api_flag_file_changes
    env self result property_name flags_file rel bcpf_flags_file
  = (out, Return result') →
  override_property
    {| property_name := property_name; values := [rel];
       property_comment := "" |} →
  out = [] ∧ grown result result'.
Proof.
  intros Hrun Hprop. unfold report_hidden_api_flag_file_changes in Hrun.
  destruct (readlines env flags_file) as [raw | e];
    [| revert Hrun; msimpl; discriminate].
  revert Hrun. msimpl.
  destruct (match_signatures self (newline_stripping_iter raw) ∅)
    as [matched | e]; msimpl; [| discriminate].
  destruct (decide (matched = ∅)).
  - intros [= <- <-]. split; [reflexivity | apply grown_refl].
  - intros [= <- <-]. split; [reflexivity |].
    eexists [_; _], [_]. cbn.
    rewrite <- app_assoc. repeat split. repeat constructor; apply Hprop.
Qed.

Lemma remapped_override_name basename :
  override_name basename = true →
  override_name
    (if String.eqb basename "hiddenapi-max-target-o.txt"
     then "hiddenapi-max-target-o-low-priority.txt"
     else if String.eqb basename "hiddenapi-max-target-r-loprio.txt"
     then "hiddenapi-max-target-r-low-priority.txt"
     else basename) = true.
Proof.
  intros Hname.
  destruct (String.eqb basename "hiddenapi-max-target-o.txt");
    [reflexivity |].
  destruct (String.eqb basename "hiddenapi-max-target-r-loprio.txt");
    [reflexivity | exact Hname].
Qed.

Lemma check_hidden_api_file_grows
    env self hiddenapi_dir result basename out result' :
  check_hidden_api_file env self hiddenapi_dir result basename
  = (out, Return result') →
  out = [] ∧ grown result result'.
Proof.
  unfold check_hidden_api_file. fold (override_name basename).
  destruct (override_name basename) eqn:Hname; cbn [negb].
  - cbv zeta.
    destruct (module_path self (bcpf self)) as [bcpf_dir | e]; msimpl;
      [| discriminate].
    intros Hrun.
    apply report_hidden_api_flag_file_changes_grows in Hrun;
      [exact Hrun |].
    split; [reflexivity |]. split; [apply replace_hyphens |].
    eexists. split; [reflexivity |].
    apply remapped_override_name, Hname.
  - intros [= <- <-]. split; [reflexivity | apply grown_refl].
Qed.

Lemma for_basename_in_grows env self hiddenapi_dir basenames :
  ∀ result out result',
    for_basename_in env self hiddenapi_dir basenames result
    = (out, Return result') →
    out = [] ∧ grown result result'.
Proof.
  induction basenames as [| basename basenames IH];
    intros result out result'.
  - intros [= <- <-]. split; [reflexivity | apply grown_refl].
  - cbn [for_basename_in].
    destruct (check_hidden_api_file env self hiddenapi_dir result basename)
      as [out1 [result1 | e]] eqn:Hfirst; [| discriminate].
    apply check_hidden_api_file_grows in Hfirst as [-> Hgrown1].
    rewrite bind_ret. intros Hrest.
    apply IH in Hrest as [-> Hgrown2].
    split; [reflexivity | eapply grown_trans; eassumption].
Qed.

(** X12.  A scan of the override directory that returns has reported
    nothing and has only appended to the result: the changes that were
    there stay in front, the diffs stay, two file changes are appended for
    every property change, and every property change appended has no
    comment, a name without hyphens and as its one value a file
    hiddenapi/hiddenapi-*.txt. *)
Theorem X12_override_scan_only_appends
    (env : Env) (self : BcpfAnalyzer) (result result' : Result)
    (reports : list Report) :
  check_frameworks_base_boot_hidden_api_files env self result
  = (reports, Return result') →
  reports = [] ∧ grown result result'.
Proof.
  unfold check_frameworks_base_boot_hidden_api_files.
  destruct (os_listdir env _) as [listing | e]; msimpl; [| discriminate].
  apply for_basename_in_grows.
Qed.

Lemma X12_override_scan_only_appends_witness :
  ([] : list Report) = []
  ∧ grown new_Result
      {| diffs := None;
         property_changes :=
           [ {| property_name := "max_target_o_low_priority";
                values := ["hiddenapi/hiddenapi-max-target-o-low-priority.txt"];
                property_comment := "" |} ];
         file_changes :=
           [ {| path := "frameworks/base/boot/hiddenapi/hiddenapi-max-target-o.txt";
                description :=
                  "Remove the following entries:" +:+ nl
                  +:+ "            LA;->a()V" +:+ nl |};
             {| path := "bcpf-dir/hiddenapi/hiddenapi-max-target-o-low-priority.txt";
                description :=
                  "Add the following entries:" +:+ nl
                  +:+ "            LA;->a()V" +:+ nl |} ] |}.
Proof.
  apply (X12_override_scan_only_appends override_env override_self).
  vm_compute. reflexivity.
Defined.

(** ** The whole analysis *)

(** A computation that reports no file change. *)
Definition silent {A} (m : M A) : Prop := rendered_paths (fst m) = [].

(** A computation that has reported no file change if it raises. *)
Definition silent_if_raised {A} (m : M A) : Prop :=
  ∀ e, snd m = Raise e → rendered_paths (fst m) = [].

Lemma rendered_paths_app log log' :
  rendered_paths (log ++ log') = rendered_paths log ++ rendered_paths log'.
Proof. unfold rendered_paths. apply flat_map_app. Qed.

Lemma silent_bind {A B} (m : M A) (k : A → M B) :
  silent m →
  (∀ out a, m = (out, Return a) → silent (k a)) →
  silent (bind m k).
Proof.
  unfold silent. destruct m as [out [a | e]]; intros Hm Hk; [| exact Hm].
  rewrite bind_return. cbn [fst] in *.
  rewrite rendered_paths_app, Hm, (Hk out a eq_refl). reflexivity.
Qed.

Lemma silent_if_raised_bind {A B} (m : M A) (k : A → M B) :
  silent m →
  (∀ a, silent_if_raised (k a)) →
  silent_if_raised (bind m k).
Proof.
  unfold silent, silent_if_raised.
  destruct m as [out [a | e]]; intros Hm Hk e'; [| intros _; exact Hm].
  rewrite bind_return. cbn [fst snd] in *. intros Hraise.
  rewrite rendered_paths_app, Hm, (Hk a e' Hraise). reflexivity.
Qed.

Lemma silent_lift {A} (o : Outcome A) : silent (lift o).
Proof. reflexivity. Qed.

Lemma silent_check significant m p s :
  silent (check_inconsistent_flag_lines significant m p s).
Proof.
  destruct (check_inconsistent_flag_lines_cases significant m p s)
    as [-> | ->]; reflexivity.
Qed.

Lemma silent_scan_triples significant lines :
  ∀ diffs, silent (scan_triples significant lines diffs).
Proof.
  induction lines as [| | | m p s lines IH] using list_ind3;
    intros diffs; try reflexivity.
  rewrite scan_triples_unfold.
  apply silent_bind; [apply silent_check |]. intros _ _ _. cbv zeta.
  match goal with
  | |- context [negb (String.eqb ?a ?b)] => destruct (negb (String.eqb a b))
  end; [reflexivity |].
  destruct (Py.truthy s); [reflexivity | apply IH].
Qed.

Lemma silent_scan self lines :
  silent (scan_inconsistent_flags_report self lines).
Proof.
  destruct lines as [| hm [| hp [| hs lines]]]; try reflexivity.
  unfold scan_inconsistent_flags_report.
  apply silent_bind; [apply silent_lift |]. intros _ bcpf_dir _.
  apply silent_bind.
  - destruct (Py.contains _ _); reflexivity.
  - intros _ significant _.
    apply silent_bind; [apply silent_check |]. intros _ _ _.
    apply silent_scan_triples.
Qed.

Lemma silent_while_inconsistent self n :
  ∀ lines line diffs,
    length lines < n → silent (while_inconsistent self line lines diffs).
Proof.
  induction n as [| n IH]; intros lines line diffs Hlen; [lia |].
  rewrite while_inconsistent_eq.
  destruct (String.eqb line _INCONSISTENT_FLAGS).
  - apply silent_bind; [apply silent_scan |].
    intros out [[line' diffs'] lines'] Hscan.
    apply scan_inconsistent_flags_report_leftover in Hscan.
    apply IH. lia.
  - destruct lines as [| line' lines']; [reflexivity |].
    apply IH. cbn in Hlen. lia.
Qed.

Lemma silent_for_line_in self lines diffs :
  silent (for_line_in self lines diffs).
Proof.
  destruct lines as [| line lines]; [reflexivity |].
  apply (silent_while_inconsistent self (S (length lines))). lia.
Qed.

Lemma silent_build_hiddenapi_flags env self filename :
  silent (build_hiddenapi_flags env self filename).
Proof.
  unfold build_hiddenapi_flags.
  apply silent_bind; [apply silent_for_line_in |]. intros _ diffs _.
  apply silent_bind; [apply silent_lift |]. intros _ returncode _.
  destruct (negb _); reflexivity.
Qed.

Lemma silent_load_module_info env self : silent (load_module_info env self).
Proof.
  unfold load_module_info.
  apply silent_bind; [reflexivity |]. intros _ _ _.
  apply silent_bind; [apply silent_lift |]. intros _ returncode _.
  destruct (negb _); [reflexivity |].
  apply silent_bind; [apply silent_lift |]. reflexivity.
Qed.

Lemma silent_load_all_flags env self : silent (load_all_flags env self).
Proof.
  unfold load_all_flags.
  apply silent_bind; [apply silent_lift |]. intros _ file _.
  apply silent_bind; [apply silent_lift |]. reflexivity.
Qed.

Lemma silent_build_monolithic_stubs_flags env self :
  silent (build_monolithic_stubs_flags env self).
Proof.
  unfold build_monolithic_stubs_flags.
  apply silent_bind; [reflexivity |]. intros _ _ _.
  apply silent_bind; [apply silent_build_hiddenapi_flags |].
  intros _ [d |] _; [| reflexivity].
  destruct (decide (d = ∅)); reflexivity.
Qed.

Lemma silent_report_hidden_api_flag_file_changes
    env self result property_name flags_file rel bcpf_flags_file :
  silent (report_hidden_api_flag_file_changes
            env self result property_name flags_file rel bcpf_flags_file).
Proof.
  unfold report_hidden_api_flag_file_changes.
  apply silent_bind; [apply silent_lift |]. intros _ raw _.
  apply silent_bind; [apply silent_lift |]. intros _ matched _.
  destruct (decide (matched = ∅)); reflexivity.
Qed.

Lemma silent_check_hidden_api_file env self hiddenapi_dir result basename :
  silent (check_hidden_api_file env self hiddenapi_dir result basename).
Proof.
  unfold check_hidden_api_file.
  destruct (negb _); [reflexivity |]. cbv zeta.
  apply silent_bind; [apply silent_lift |]. intros _ bcpf_dir _.
  apply silent_report_hidden_api_flag_file_changes.
Qed.

Lemma silent_for_basename_in env self hiddenapi_dir basenames :
  ∀ result, silent (for_basename_in env self hiddenapi_dir basenames result).
Proof.
  induction basenames as [| basename basenames IH]; intros result;
    [reflexivity |].
  cbn [for_basename_in].
  apply silent_bind; [apply silent_check_hidden_api_file |].
  intros _ result' _. apply IH.
Qed.

Lemma silent_check_frameworks env self result :
  silent (check_frameworks_base_boot_hidden_api_files env self result).
Proof.
  unfold check_frameworks_base_boot_hidden_api_files.
  apply silent_bind; [apply silent_lift |]. intros _ listing _.
  apply silent_for_basename_in.
Qed.

Lemma silent_build_monolithic_flags env self result :
  silent (build_monolithic_flags env self result).
Proof.
  unfold build_monolithic_flags.
  apply silent_bind; [reflexivity |]. intros _ _ _.
  apply silent_bind; [apply silent_build_hiddenapi_flags |]. intros _ d _.
  apply silent_bind; [apply silent_load_all_flags |]. intros _ self' _.
  cbn [diffs set_diffs]. destruct d as [d |]; [| reflexivity].
  destruct (decide (d = ∅)); [reflexivity |].
  apply silent_bind; [reflexivity |]. intros _ _ _.
  apply silent_bind; [reflexivity |]. intros _ _ _.
  apply silent_bind; [apply silent_check_frameworks |]. reflexivity.
Qed.

Lemma silent_add_android_bp_change env self result :
  silent (add_android_bp_change env self result).
Proof.
  unfold add_android_bp_change.
  destruct (property_changes result); [reflexivity |].
  apply silent_bind; [apply silent_lift |]. reflexivity.
Qed.

Lemma report_file_changes_returns changes :
  report_file_changes changes
  = ((match changes with [] => [] | _ => [ModificationsHeader] end)
     ++ map (fun c => Modification (path c) (description c))
            (list_sort FileChange_lt changes),
     Return tt).
Proof.
  unfold report_file_changes. destruct changes as [| c changes];
    [reflexivity |].
  rewrite report_each_file_change. reflexivity.
Qed.

(** X13.  A run of [analyze] that ends with an exception has reported no
    file change: the changes are reported in one go at the end, once the
    builds, the catalog and the override directory have all been gone
    through, and the reporting itself raises nothing. *)
Theorem X13_no_file_change_is_reported_before_a_failure
    (env : Env) (self : BcpfAnalyzer) (e : exn) :
  snd (analyze env self) = Raise e →
  rendered_paths (fst (analyze env self)) = [].
Proof.
  revert e. change (silent_if_raised (analyze env self)).
  unfold analyze.
  apply silent_if_raised_bind; [reflexivity |]. intros _.
  apply silent_if_raised_bind; [reflexivity |]. intros _.
  apply silent_if_raised_bind; [apply silent_load_module_info |].
  intros self1.
  apply silent_if_raised_bind; [reflexivity |]. intros _.
  apply silent_if_raised_bind; [apply silent_lift |]. intros _.
  apply silent_if_raised_bind; [apply silent_build_monolithic_stubs_flags |].
  intros _. cbv zeta.
  apply silent_if_raised_bind; [apply silent_build_monolithic_flags |].
  intros [self2 result].
  apply silent_if_raised_bind; [apply silent_add_android_bp_change |].
  intros result'. intros e'.
  rewrite report_file_changes_returns. discriminate.
Qed.

Lemma X13_no_file_change_is_reported_before_a_failure_witness :
  rendered_paths
    (fst (analyze
            (Fixture.env
               (Fixture.flags_build
                  [ _INCONSISTENT_FLAGS;
                    Fixture.header_module; Fixture.header_monolithic; "";
                    "< LA;->a()V,blocked"; "> LA;->a()V,max-target-o";
                    "ninja failed with: exit status 1" ]
                  1)
               []
               [ ("hiddenapi-max-target-o.txt", ["LA;->a()V"]);
                 ("hiddenapi-unsupported.txt", ["LA;->a()V"]) ])
            Fixture.fresh))
  = [].
Proof.
  apply (X13_no_file_change_is_reported_before_a_failure
           _ _ (NotInitialized "signatures")).
  vm_compute. reflexivity.
Defined.

Lemma build_without_marker env self filename status :
  Forall (fun line => line ≠ _INCONSISTENT_FLAGS)
         (lines (build_file_read_output env self filename)) →
  returncode (build_file_read_output env self filename) = Some status →
  build_hiddenapi_flags env self filename = ([], Return None).
Proof.
  intros Hlines Hstatus. unfold build_hiddenapi_flags, wait.
  rewrite for_line_in_no_marker by assumption. rewrite Hstatus. msimpl.
  destruct (negb (status =? 0)%Z); reflexivity.
Qed.

(** X14.  When module-info.json builds and loads, the fragment has a
    module path, neither the build of the stub flags nor the build of the
    flags prints the marker of a report, and all-flags.csv is found and
    read, [analyze] returns having reported its six progress messages and
    nothing else: no discrepancy, no file change, and the override
    directory is not looked at. *)
Theorem X14_consistent_builds_leave_nothing_to_do
    (env : Env) (self : BcpfAnalyzer) (mi : ModuleInfo)
    (bcpf_dir all_flags : string) (raw : list string) (stubs flags : Z) :
  let module_info_file :=
    Py.path_join (product_out_dir self) "module-info.json" in
  let self' := set_module_info self mi in
  returncode (build_file_read_output env self module_info_file)
  = Some 0%Z →
  json_load env (Py.path_join (top_dir self) module_info_file) = Return mi →
  ModuleInfo_module_path mi (bcpf self) = Return bcpf_dir →
  Forall (fun line => line ≠ _INCONSISTENT_FLAGS)
         (lines (build_file_read_output env self _STUB_FLAGS_FILE)) →
  returncode (build_file_read_output env self _STUB_FLAGS_FILE)
  = Some stubs →
  Forall (fun line => line ≠ _INCONSISTENT_FLAGS)
         (lines (build_file_read_output env self _FLAGS_FILE)) →
  returncode (build_file_read_output env self _FLAGS_FILE) = Some flags →
  find_bootclasspath_fragment_output_file env self' "all-flags.csv"
  = Return all_flags →
  readlines env all_flags = Return raw →
  analyze env self
  = ([ Analyzing (bcpf self);
       BeforeYouStart (bcpf self) (apex self) (sdk self);
       MakingSure module_info_file; Cleaning;
       AttemptingStubFlags; AttemptingFlags ],
     Return tt).
Proof.
  intros module_info_file self' Hinfo Hjson Hpath Hstub_lines Hstub
         Hflags_lines Hflags Hfind Hread.
  unfold analyze, load_module_info, wait. fold module_info_file.
  msimpl. rewrite Hinfo. msimpl. cbn [Z.eqb negb].
  rewrite Hjson. msimpl. fold self'.
  unfold module_out_dir, module_path. cbn [module_info self' set_module_info].
  change (bcpf self') with (bcpf self). rewrite Hpath. msimpl.
  unfold build_monolithic_stubs_flags. msimpl.
  rewrite (build_without_marker env self' _STUB_FLAGS_FILE stubs)
    by assumption.
  msimpl. unfold build_monolithic_flags. msimpl.
  rewrite (build_without_marker env self' _FLAGS_FILE flags) by assumption.
  msimpl. rewrite (load_all_flags_eq env self' all_flags raw) by assumption.
  msimpl. reflexivity.
Qed.

Lemma X14_consistent_builds_leave_nothing_to_do_witness :
  analyze
    (Fixture.env
       (Fixture.flags_build ["[100% 1/1] hiddenapi"; "build completed"] 0)
       ["LA;->a()V,blocked"] [])
    Fixture.fresh
  = ([ Analyzing "bcpf"; BeforeYouStart "bcpf" "apex" "sdk";
       MakingSure (Py.path_join "out/product" "module-info.json"); Cleaning;
       AttemptingStubFlags; AttemptingFlags ],
     Return tt).
Proof.
  apply (X14_consistent_builds_leave_nothing_to_do
           _ Fixture.fresh Fixture.module_info_json "bcpf-dir"
           Fixture.all_flags_csv ["LA;->a()V,blocked" +:+ nl] 0%Z 0%Z).
  - reflexivity.
  - reflexivity.
  - reflexivity.
  - constructor.
  - reflexivity.
  - repeat constructor; discriminate.
  - reflexivity.
  - reflexivity.
  - reflexivity.
Defined.

(** *** The shape of the plan *)








